(** * Fluids: the per-tick orchestration of the Position Based Fluids model

    A shallow embedding of [src/physics/Fluids.cpp].  The OpenCL context
    the class talks to is a log of the calls it receives, in order; the
    member functions of [Fluids] are functions on the object's state that
    write to this log. *)

From Stdlib Require Import ZArith List String Bool Lia.
From Stdlib Require Import Sorting.Permutation Sorting.Sorted.
From Stdlib Require Import Floats.SpecFloat.
Import ListNotations.
Local Open Scope string_scope.
Local Open Scope list_scope.
Local Open Scope Z_scope.

(** ** Single precision numbers ([float]) *)

Module F32.
Definition prec : Z := 24.
Definition emax : Z := 128.
Definition float : Type := spec_float.

(** [(float) n] for an integer [n]: rounded to the nearest, ties to even. *)
Definition of_Z (n : Z) : float := binary_normalize prec emax n 0 false.
Definition zero : float := S754_zero false.
Definition add : float -> float -> float := SFadd prec emax.
Definition sub : float -> float -> float := SFsub prec emax.
Definition mul : float -> float -> float := SFmul prec emax.
Definition div : float -> float -> float := SFdiv prec emax.
Definition sqrt : float -> float := SFsqrt prec emax.
Definition ltb : float -> float -> bool := SFltb.
Definition leb : float -> float -> bool := SFleb.
Definition eqb : float -> float -> bool := SFeqb.
Definition opp : float -> float := SFopp.
(** The largest integer not above a finite number. *)
Definition floor (x : float) : Z :=
  match x with
  | S754_finite s m e =>
      let sm := if s then Z.neg m else Z.pos m in
      if 0 <=? e then sm * 2 ^ e else sm / 2 ^ (- e)
  | _ => 0
  end.
(** A decimal literal [n/d] written with an [f] suffix. *)
Definition lit (n d : Z) : float := div (of_Z n) (of_Z d).
End F32.

(** ** Machine integers *)

(** [size_t]: 64 bit, unsigned, arithmetic modulo 2^64. *)
Definition size_t_mod : Z := 2 ^ 64.
Definition wrap_size_t (n : Z) : Z := n mod size_t_mod.
Definition size_mul (a b : Z) : Z := wrap_size_t (a * b).
(** Division of unsigned integers; dividing by zero has no defined result. *)
Definition size_div (a b : Z) : option Z :=
  if b =? 0 then None else Some (a / b).
(** [(int) n]: the low 32 bits, read as a two's complement number. *)
Definition int_cast (n : Z) : Z :=
  let m := n mod 2 ^ 32 in
  if m <? 2 ^ 31 then m else m - 2 ^ 32.
(** A count of clock ticks: 64 bit, signed; what does not fit keeps its low
    64 bits, read as a two's complement number. *)
Definition int64_wrap (n : Z) : Z :=
  let m := n mod 2 ^ 64 in
  if m <? 2 ^ 63 then m else m - 2 ^ 64.

(** ** Names of programs, kernels and buffers (the [#define]s) *)

Definition PROGRAM_FLUIDS := "fluids".

Definition KERNEL_INFINITE_POS := "infPosVerts".
Definition KERNEL_RANDOM_POS := "randPosVerts".
Definition KERNEL_UPDATE_POS_BOUNCING := "updatePosWithBouncingWalls".
Definition KERNEL_UPDATE_POS_CYCLIC := "updatePosWithCyclicWalls".
Definition KERNEL_UPDATE_VEL := "updateVel".
Definition KERNEL_FLUSH_GRID_DETECTOR := "flushGridDetector".
Definition KERNEL_FILL_GRID_DETECTOR := "fillGridDetector".
Definition KERNEL_RESET_CAMERA_DIST := "resetCameraDist".
Definition KERNEL_FILL_CAMERA_DIST := "fillCameraDist".
Definition KERNEL_RESET_CELL_ID := "resetCellIDs".
Definition KERNEL_FILL_CELL_ID := "fillCellIDs".
Definition KERNEL_FLUSH_START_END_CELL := "flushStartEndCell".
Definition KERNEL_FILL_START_CELL := "fillStartCell".
Definition KERNEL_FILL_END_CELL := "fillEndCell".
Definition KERNEL_ADJUST_END_CELL := "adjustEndCell".

Definition KERNEL_PREDICT_POS := "predictPosition".
Definition KERNEL_DENSITY := "computeFluidDensity".
Definition KERNEL_CONSTRAINT_FACTOR := "computeConstraintFactor".
Definition KERNEL_CONSTRAINT_CORRECTION := "computeConstraintCorrection".
Definition KERNEL_CORRECT_POS := "correctPosition".

Definition MAX_NB_JACOBI_ITERS : Z := 3.

(** ** The calls received by the OpenCL context *)

Inductive MemFlag := CL_MEM_READ_ONLY | CL_MEM_READ_WRITE.

(** One [-D] definition of the build options. *)
Inductive BuildOpt :=
| DefInt (name : string) (v : Z)
| DefFloat (name : string) (v : F32.float).

Inductive Cmd :=
| CreateProgram (prog file : string) (opts : list BuildOpt)
| CreateGLBuffer (name : string) (vbo : Z) (flag : MemFlag)
| CreateBuffer (name : string) (bytes : Z) (flag : MemFlag)
| CreateKernel (prog kernel : string) (args : list string)
| SetKernelArg (kernel : string) (slot : Z) (v : F32.float)
| RunKernel (kernel : string) (workItems : Z)
| AcquireGLBuffers (names : list string)
| ReleaseGLBuffers (names : list string)
| Sort (key : string) (payload : list string).

(** A computation that issues calls to the context: its result and the
    calls, oldest first. *)
Definition CL (A : Type) : Type := A * list Cmd.

Definition ret {A} (a : A) : CL A := (a, []).
Definition bind {A B} (c : CL A) (k : A -> CL B) : CL B :=
  let (a, l1) := c in let (b, l2) := k a in (b, (l1 ++ l2)%list).
Definition call (c : Cmd) : CL unit := (tt, [c]).

Declare Scope cl_scope.
Delimit Scope cl_scope with cl.
Notation "c1 ;; c2" := (bind c1 (fun _ => c2))
  (at level 61, right associativity) : cl_scope.
Local Open Scope cl_scope.

Definition when (b : bool) (c : CL unit) : CL unit := if b then c else ret tt.

(** [for (int iter = lo; iter < hi; ++iter) body]. *)
Fixpoint for_iter (fuel : nat) (iter hi : Z) (body : Z -> CL unit) : CL unit :=
  match fuel with
  | O => ret tt
  | S fuel' =>
      if iter <? hi then body iter ;; for_iter fuel' (iter + 1) hi body
      else ret tt
  end.
Definition for_range (lo hi : Z) (body : Z -> CL unit) : CL unit :=
  for_iter (Z.to_nat (hi - lo)) lo hi body.

(** ** The object *)

Inductive Dimension := dim2D | dim3D.

(** The boundary mode is a C++ enumeration: besides its two enumerators a
    variable of the type can hold any other value of the underlying
    integer type, which [OtherBoundary] stands for. *)
Inductive Boundary :=
| CyclicWall
| BouncingWall
| OtherBoundary (raw : Z).

(** The members inherited from [Model], as [Fluids.cpp] uses them.  The
    header that declares them is not among the sources: counts and sizes
    are taken to be [size_t], which is how [createBuffers] multiplies them
    with [sizeof]; a time point is the tick count of the clock. *)
Record Model := mkModel {
  m_init : bool;
  m_pause : bool;
  m_time : Z;
  m_boundary : Boundary;
  m_dimension : Dimension;
  m_velocity : F32.float;
  m_boxSize : Z;
  m_gridRes : Z;
  m_nbCells : Z;
  m_maxNbParticles : Z;
  m_currNbParticles : Z;
  m_particleVBO : Z;
  m_cameraVBO : Z;
  m_gridVBO : Z
}.

Record Fluids := mkFluids {
  base : Model;
  m_scaleAlignment : F32.float;
  m_scaleCohesion : F32.float;
  m_scaleSeparation : F32.float;
  m_activeAlignment : bool;
  m_activeSeparation : bool;
  m_activeCohesion : bool;
  m_simplifiedMode : bool;
  m_maxNbPartsInCell : Z;
  m_radixSort : Z;
  m_target : Z
}.

Definition set_init (b : bool) (f : Fluids) : Fluids :=
  let m := base f in
  mkFluids
    (mkModel b (m_pause m) (m_time m) (m_boundary m) (m_dimension m)
       (m_velocity m) (m_boxSize m) (m_gridRes m) (m_nbCells m)
       (m_maxNbParticles m) (m_currNbParticles m) (m_particleVBO m)
       (m_cameraVBO m) (m_gridVBO m))
    (m_scaleAlignment f) (m_scaleCohesion f) (m_scaleSeparation f)
    (m_activeAlignment f) (m_activeSeparation f) (m_activeCohesion f)
    (m_simplifiedMode f) (m_maxNbPartsInCell f) (m_radixSort f) (m_target f).

Definition set_time (t : Z) (f : Fluids) : Fluids :=
  let m := base f in
  mkFluids
    (mkModel (m_init m) (m_pause m) t (m_boundary m) (m_dimension m)
       (m_velocity m) (m_boxSize m) (m_gridRes m) (m_nbCells m)
       (m_maxNbParticles m) (m_currNbParticles m) (m_particleVBO m)
       (m_cameraVBO m) (m_gridVBO m))
    (m_scaleAlignment f) (m_scaleCohesion f) (m_scaleSeparation f)
    (m_activeAlignment f) (m_activeSeparation f) (m_activeCohesion f)
    (m_simplifiedMode f) (m_maxNbPartsInCell f) (m_radixSort f) (m_target f).

(** ** Member functions *)

(** [(int)(m_boxSize * m_boxSize / (m_gridRes * m_gridRes))] *)
Definition effectRadiusSquared (f : Fluids) : option Z :=
  match size_div (size_mul (m_boxSize (base f)) (m_boxSize (base f)))
                 (size_mul (m_gridRes (base f)) (m_gridRes (base f))) with
  | Some q => Some (int_cast q)
  | None => None
  end.

Definition createProgram (f : Fluids) : option (CL bool) :=
  match effectRadiusSquared f with
  | None => None
  | Some r2 =>
      let clBuildOptions :=
        [ DefInt "EFFECT_RADIUS_SQUARED" r2;
          DefFloat "ABS_WALL_POS"
            (F32.div (F32.of_Z (m_boxSize (base f))) (F32.of_Z 2));
          DefInt "GRID_RES" (m_gridRes (base f));
          DefInt "GRID_NUM_CELLS" (m_nbCells (base f));
          DefInt "NUM_MAX_PARTS_IN_CELL" (m_maxNbPartsInCell f) ] in
      Some (call (CreateProgram PROGRAM_FLUIDS "fluids.cl" clBuildOptions) ;;
            ret true)
  end.

Definition sizeof_float : Z := 4.
Definition sizeof_uint : Z := 4.

Definition createBuffers (f : Fluids) : CL bool :=
  let m := base f in
  call (CreateGLBuffer "u_cameraPos" (m_cameraVBO m) CL_MEM_READ_ONLY) ;;
  call (CreateGLBuffer "p_pos" (m_particleVBO m) CL_MEM_READ_WRITE) ;;
  call (CreateGLBuffer "c_partDetector" (m_gridVBO m) CL_MEM_READ_WRITE) ;;
  call (CreateBuffer "p_predPos"
          (size_mul (size_mul 4 (m_maxNbParticles m)) sizeof_float)
          CL_MEM_READ_WRITE) ;;
  call (CreateBuffer "p_corrPos"
          (size_mul (size_mul 4 (m_maxNbParticles m)) sizeof_float)
          CL_MEM_READ_WRITE) ;;
  call (CreateBuffer "p_vel"
          (size_mul (size_mul 4 (m_maxNbParticles m)) sizeof_float)
          CL_MEM_READ_WRITE) ;;
  call (CreateBuffer "p_cellID"
          (size_mul (m_maxNbParticles m) sizeof_uint) CL_MEM_READ_WRITE) ;;
  call (CreateBuffer "p_cameraDist"
          (size_mul (m_maxNbParticles m) sizeof_uint) CL_MEM_READ_WRITE) ;;
  call (CreateBuffer "c_startEndPartID"
          (size_mul (size_mul 2 (m_nbCells m)) sizeof_uint)
          CL_MEM_READ_WRITE) ;;
  ret true.

Definition createKernels (f : Fluids) : CL bool :=
  (* Init only *)
  call (CreateKernel PROGRAM_FLUIDS KERNEL_INFINITE_POS [ "p_pos" ]) ;;
  call (CreateKernel PROGRAM_FLUIDS KERNEL_RANDOM_POS [ "p_pos"; "p_vel" ]) ;;
  (* For rendering purpose only *)
  call (CreateKernel PROGRAM_FLUIDS KERNEL_FLUSH_GRID_DETECTOR
          [ "c_partDetector" ]) ;;
  call (CreateKernel PROGRAM_FLUIDS KERNEL_FILL_GRID_DETECTOR
          [ "p_pos"; "c_partDetector" ]) ;;
  call (CreateKernel PROGRAM_FLUIDS KERNEL_RESET_CAMERA_DIST
          [ "p_cameraDist" ]) ;;
  call (CreateKernel PROGRAM_FLUIDS KERNEL_FILL_CAMERA_DIST
          [ "p_pos"; "u_cameraPos"; "p_cameraDist" ]) ;;
  (* Radix Sort based on 3D grid, using predicted positions, not corrected ones *)
  call (CreateKernel PROGRAM_FLUIDS KERNEL_RESET_CELL_ID [ "p_cellID" ]) ;;
  call (CreateKernel PROGRAM_FLUIDS KERNEL_FILL_CELL_ID
          [ "p_predPos"; "p_cellID" ]) ;;
  call (CreateKernel PROGRAM_FLUIDS KERNEL_FLUSH_START_END_CELL
          [ "c_startEndPartID" ]) ;;
  call (CreateKernel PROGRAM_FLUIDS KERNEL_FILL_START_CELL
          [ "p_cellID"; "c_startEndPartID" ]) ;;
  call (CreateKernel PROGRAM_FLUIDS KERNEL_FILL_END_CELL
          [ "p_cellID"; "c_startEndPartID" ]) ;;
  call (CreateKernel PROGRAM_FLUIDS KERNEL_ADJUST_END_CELL
          [ "c_startEndPartID" ]) ;;
  (* Position Based Fluids: position prediction *)
  call (CreateKernel PROGRAM_FLUIDS KERNEL_PREDICT_POS
          [ "p_pos"; "p_vel"; EmptyString; "p_predPos" ]) ;;
  (* Jacobi solver to correct position *)
  call (CreateKernel PROGRAM_FLUIDS KERNEL_DENSITY
          [ "p_predPos"; "p_density" ]) ;;
  call (CreateKernel PROGRAM_FLUIDS KERNEL_CONSTRAINT_FACTOR
          [ "p_density"; "p_predPos"; "p_corrPos" ]) ;;
  call (CreateKernel PROGRAM_FLUIDS KERNEL_CONSTRAINT_CORRECTION
          [ "p_predPos"; "p_density"; "p_corrPos" ]) ;;
  call (CreateKernel PROGRAM_FLUIDS KERNEL_CORRECT_POS
          [ "p_corrPos"; "p_vel"; "p_predPos" ]) ;;
  (* Velocity and position update *)
  call (CreateKernel PROGRAM_FLUIDS KERNEL_UPDATE_VEL
          [ "p_predPos"; "p_pos"; EmptyString; "p_vel" ]) ;;
  call (CreateKernel PROGRAM_FLUIDS KERNEL_UPDATE_POS_BOUNCING
          [ "p_vel"; "p_predPos"; EmptyString; "p_pos" ]) ;;
  call (CreateKernel PROGRAM_FLUIDS KERNEL_UPDATE_POS_CYCLIC
          [ "p_vel"; "p_predPos"; EmptyString; "p_pos" ]) ;;
  ret true.

Definition updateFluidsParamsInKernel (f : Fluids) : CL unit :=
  let dim := match m_dimension (base f) with
             | dim2D => F32.of_Z 2
             | dim3D => F32.of_Z 3
             end in
  call (SetKernelArg KERNEL_RANDOM_POS 2 dim) ;;
  let vel := m_velocity (base f) in
  call (SetKernelArg KERNEL_UPDATE_VEL 2 vel).

Section Clock.

(** [clock] is a [std::chrono] clock; a time point is its count of
    ticks, and [ticks_per_ms] of them make one millisecond. *)
Variable ticks_per_ms : Z.

(** [duration_cast<milliseconds>(t1 - t0).count()]: the difference of the
    two tick counts is a 64-bit count itself, and the cast to milliseconds
    rounds toward zero. *)
Definition elapsed_ms (t1 t0 : Z) : Z :=
  Z.quot (int64_wrap (t1 - t0)) ticks_per_ms.

(** [reset], called at time [now]. *)
Definition reset (f : Fluids) (now : Z) : Fluids * list Cmd :=
  if negb (m_init (base f)) then (f, [])
  else
    let m := base f in
    (set_time now f,
     snd (updateFluidsParamsInKernel f ;;
          call (AcquireGLBuffers [ "p_pos"; "c_partDetector" ]) ;;
          call (RunKernel KERNEL_INFINITE_POS (m_maxNbParticles m)) ;;
          call (RunKernel KERNEL_RANDOM_POS (m_currNbParticles m)) ;;
          call (RunKernel KERNEL_FLUSH_GRID_DETECTOR (m_nbCells m)) ;;
          call (RunKernel KERNEL_FILL_GRID_DETECTOR (m_currNbParticles m)) ;;
          call (RunKernel KERNEL_RESET_CELL_ID (m_maxNbParticles m)) ;;
          call (RunKernel KERNEL_RESET_CAMERA_DIST (m_maxNbParticles m)) ;;
          call (ReleaseGLBuffers [ "p_pos"; "c_partDetector" ]))).

(** The time step of a tick: the milliseconds since the previous one
    over 16, and zero when that is more than 30. *)
Definition rawTimeStep (f : Fluids) (now : Z) : F32.float :=
  F32.div (F32.of_Z (elapsed_ms now (m_time (base f)))) (F32.of_Z 16).

Definition timeStepOf (f : Fluids) (now : Z) : F32.float :=
  let timeStep := rawTimeStep f now in
  if F32.ltb (F32.of_Z 30) timeStep then F32.zero else timeStep.

(** One round of the Jacobi solver. *)
Definition jacobiRound (n : Z) : CL unit :=
  call (RunKernel KERNEL_DENSITY n) ;;
  call (RunKernel KERNEL_CONSTRAINT_FACTOR n) ;;
  call (RunKernel KERNEL_CONSTRAINT_CORRECTION n) ;;
  call (RunKernel KERNEL_CORRECT_POS n).

(** The [switch] on the boundary mode; it has no [default] label. *)
Definition updatePos (b : Boundary) (timeStep : F32.float) (n : Z) : CL unit :=
  match b with
  | CyclicWall =>
      call (SetKernelArg KERNEL_UPDATE_POS_CYCLIC 1 timeStep) ;;
      call (RunKernel KERNEL_UPDATE_POS_CYCLIC n)
  | BouncingWall =>
      call (SetKernelArg KERNEL_UPDATE_POS_BOUNCING 1 timeStep) ;;
      call (RunKernel KERNEL_UPDATE_POS_BOUNCING n)
  | OtherBoundary _ => ret tt
  end.

(** The body of [if (!m_pause)], for the time step [timeStep]. *)
Definition physics (f : Fluids) (timeStep : F32.float) : CL unit :=
  let m := base f in
  call (RunKernel KERNEL_FILL_CELL_ID (m_currNbParticles m)) ;;
  call (Sort "p_cellID" [ "p_pos"; "p_vel" ]) ;;
  (* Prediction on velocity and correction *)
  call (SetKernelArg KERNEL_PREDICT_POS 2 timeStep) ;;
  call (RunKernel KERNEL_PREDICT_POS (m_currNbParticles m)) ;;
  (* NNS *)
  call (RunKernel KERNEL_FLUSH_START_END_CELL (m_nbCells m)) ;;
  call (RunKernel KERNEL_FILL_START_CELL (m_currNbParticles m)) ;;
  call (RunKernel KERNEL_FILL_END_CELL (m_currNbParticles m)) ;;
  when (m_simplifiedMode f)
    (call (RunKernel KERNEL_ADJUST_END_CELL (m_nbCells m))) ;;
  (* Position Based Fluids *)
  for_range 0 MAX_NB_JACOBI_ITERS
    (fun _ => jacobiRound (m_currNbParticles m)) ;;
  (* Update velocity and position *)
  call (SetKernelArg KERNEL_UPDATE_VEL 1 timeStep) ;;
  call (RunKernel KERNEL_UPDATE_VEL (m_currNbParticles m)) ;;
  updatePos (m_boundary m) timeStep (m_currNbParticles m) ;;
  call (RunKernel KERNEL_FLUSH_GRID_DETECTOR (m_nbCells m)) ;;
  call (RunKernel KERNEL_FILL_GRID_DETECTOR (m_currNbParticles m)).

(** [update], called at time [now]: the new state of the object and the
    calls made to the context. *)
Definition update (f : Fluids) (now : Z) : Fluids * list Cmd :=
  if negb (m_init (base f)) then (f, [])
  else
    let m := base f in
    let f' := if negb (m_pause m) then set_time now f else f in
    (f',
     snd (call (AcquireGLBuffers [ "p_pos"; "c_partDetector"; "u_cameraPos" ]) ;;
          when (negb (m_pause m)) (physics f (timeStepOf f now)) ;;
          call (RunKernel KERNEL_FILL_CAMERA_DIST (m_currNbParticles m)) ;;
          call (Sort "p_cameraDist" [ "p_pos"; "p_vel" ]) ;;
          call (ReleaseGLBuffers [ "p_pos"; "c_partDetector"; "u_cameraPos" ]))).

(** The constructor, run at time [now] on the base object [m] that
    [Model(params)] leaves: [None] when building the options divides by
    zero. *)
Definition Fluids_new (m : Model) (maxNbParticles boxSize : Z) (now : Z)
  : option (Fluids * list Cmd) :=
  let f0 := mkFluids m (F32.lit 16 10) (F32.lit 145 100) (F32.lit 16 10)
              true true true true 1000 maxNbParticles boxSize in
  match createProgram f0 with
  | None => None
  | Some cp =>
      let l1 := snd (cp ;; createBuffers f0 ;; createKernels f0 ;; ret tt) in
      let f1 := set_init true f0 in
      let (f2, l2) := reset f1 now in
      Some (f2, (l1 ++ l2)%list)
  end.

End Clock.

(** * The device

    [fluids.cl] and the radix sort are not part of [Fluids.cpp]; what a
    call does to the buffers is modelled here from the specification. *)

(** ** Buffers *)

(** Four floats per particle, as the buffers are sized. *)
Record float4 := mkFloat4 {
  fx : F32.float; fy : F32.float; fz : F32.float; fw : F32.float
}.

Definition zero4 : float4 := mkFloat4 F32.zero F32.zero F32.zero F32.zero.

(** Arithmetic on the first three components; [w] is the left one's. *)
Definition vadd (a b : float4) : float4 :=
  mkFloat4 (F32.add (fx a) (fx b)) (F32.add (fy a) (fy b))
           (F32.add (fz a) (fz b)) (fw a).
Definition vsub (a b : float4) : float4 :=
  mkFloat4 (F32.sub (fx a) (fx b)) (F32.sub (fy a) (fy b))
           (F32.sub (fz a) (fz b)) (fw a).
Definition vscale (a : float4) (k : F32.float) : float4 :=
  mkFloat4 (F32.mul (fx a) k) (F32.mul (fy a) k) (F32.mul (fz a) k) (fw a).
Definition vdiv (a : float4) (k : F32.float) : float4 :=
  mkFloat4 (F32.div (fx a) k) (F32.div (fy a) k) (F32.div (fz a) k) (fw a).
Definition norm2 (a : float4) : F32.float :=
  F32.add (F32.add (F32.mul (fx a) (fx a)) (F32.mul (fy a) (fy a)))
          (F32.mul (fz a) (fz a)).
Definition set_w (a : float4) (k : F32.float) : float4 :=
  mkFloat4 (fx a) (fy a) (fz a) k.
Definition set_xyz (a b : float4) : float4 :=
  mkFloat4 (fx b) (fy b) (fz b) (fw a).

Definition float4_eqb (a b : float4) : bool :=
  F32.eqb (fx a) (fx b) && F32.eqb (fy a) (fy b) && F32.eqb (fz a) (fz b).

(** The buffers of [createBuffers] and [createKernels], and the scalar
    arguments bound with [setKernelArg] (latest first). *)
Record Store := mkStore {
  u_cameraPos : float4;
  p_pos : list float4;
  c_partDetector : list Z;
  p_predPos : list float4;
  p_corrPos : list float4;
  p_vel : list float4;
  p_cellID : list Z;
  p_cameraDist : list Z;
  c_startEndPartID : list (Z * Z);
  p_density : list F32.float;
  kernelArgs : list (string * Z * F32.float)
}.

Definition set_p_pos (l : list float4) (s : Store) : Store :=
  mkStore (u_cameraPos s) l (c_partDetector s) (p_predPos s) (p_corrPos s)
    (p_vel s) (p_cellID s) (p_cameraDist s) (c_startEndPartID s)
    (p_density s) (kernelArgs s).
Definition set_c_partDetector (l : list Z) (s : Store) : Store :=
  mkStore (u_cameraPos s) (p_pos s) l (p_predPos s) (p_corrPos s)
    (p_vel s) (p_cellID s) (p_cameraDist s) (c_startEndPartID s)
    (p_density s) (kernelArgs s).
Definition set_p_predPos (l : list float4) (s : Store) : Store :=
  mkStore (u_cameraPos s) (p_pos s) (c_partDetector s) l (p_corrPos s)
    (p_vel s) (p_cellID s) (p_cameraDist s) (c_startEndPartID s)
    (p_density s) (kernelArgs s).
Definition set_p_corrPos (l : list float4) (s : Store) : Store :=
  mkStore (u_cameraPos s) (p_pos s) (c_partDetector s) (p_predPos s) l
    (p_vel s) (p_cellID s) (p_cameraDist s) (c_startEndPartID s)
    (p_density s) (kernelArgs s).
Definition set_p_vel (l : list float4) (s : Store) : Store :=
  mkStore (u_cameraPos s) (p_pos s) (c_partDetector s) (p_predPos s)
    (p_corrPos s) l (p_cellID s) (p_cameraDist s) (c_startEndPartID s)
    (p_density s) (kernelArgs s).
Definition set_p_cellID (l : list Z) (s : Store) : Store :=
  mkStore (u_cameraPos s) (p_pos s) (c_partDetector s) (p_predPos s)
    (p_corrPos s) (p_vel s) l (p_cameraDist s) (c_startEndPartID s)
    (p_density s) (kernelArgs s).
Definition set_p_cameraDist (l : list Z) (s : Store) : Store :=
  mkStore (u_cameraPos s) (p_pos s) (c_partDetector s) (p_predPos s)
    (p_corrPos s) (p_vel s) (p_cellID s) l (c_startEndPartID s)
    (p_density s) (kernelArgs s).
Definition set_c_startEndPartID (l : list (Z * Z)) (s : Store) : Store :=
  mkStore (u_cameraPos s) (p_pos s) (c_partDetector s) (p_predPos s)
    (p_corrPos s) (p_vel s) (p_cellID s) (p_cameraDist s) l
    (p_density s) (kernelArgs s).
Definition set_p_density (l : list F32.float) (s : Store) : Store :=
  mkStore (u_cameraPos s) (p_pos s) (c_partDetector s) (p_predPos s)
    (p_corrPos s) (p_vel s) (p_cellID s) (p_cameraDist s)
    (c_startEndPartID s) l (kernelArgs s).
Definition bind_arg (k : string) (slot : Z) (v : F32.float) (s : Store) : Store :=
  mkStore (u_cameraPos s) (p_pos s) (c_partDetector s) (p_predPos s)
    (p_corrPos s) (p_vel s) (p_cellID s) (p_cameraDist s)
    (c_startEndPartID s) (p_density s) ((k, slot, v) :: kernelArgs s).

Fixpoint lookup_arg (k : string) (slot : Z) (l : list (string * Z * F32.float))
  : option F32.float :=
  match l with
  | [] => None
  | (k', slot', v) :: r =>
      if String.eqb k k' && (slot =? slot') then Some v else lookup_arg k slot r
  end.

(** A kernel run over [n] work items: item [i < n] writes slot [i] with a
    value computed from the buffers as they were before the run; the
    slots from [n] on keep their content. *)
Fixpoint mapi_from {A} (i : nat) (n : nat) (g : nat -> A -> A) (l : list A)
  : list A :=
  match l with
  | [] => []
  | a :: r =>
      (if (i <? n)%nat then g i a else a) :: mapi_from (S i) n g r
  end.
Definition workItems {A} (n : Z) (g : nat -> A -> A) (l : list A) : list A :=
  mapi_from 0 (Z.to_nat n) g l.

(** ** The radix sort *)

(** Modelled from the spec: [RadixSort::sort(key, payloads)], which is
    missing here.  It orders the keys ascending, keeps the relative order
    of equal keys, and applies the one permutation it finds to the key
    buffer and to every payload buffer. *)
Fixpoint insertKey (k : Z) (i : nat) (l : list (Z * nat)) : list (Z * nat) :=
  match l with
  | [] => [(k, i)]
  | (k', i') :: r =>
      if k <=? k' then (k, i) :: l else (k', i') :: insertKey k i r
  end.

(** Modelled from the spec: the keys with their indices in ascending
    order of key, equal keys in their old order. *)
Fixpoint sortKeys (l : list (Z * nat)) : list (Z * nat) :=
  match l with
  | [] => []
  | (k, i) :: r => insertKey k i (sortKeys r)
  end.

(** Modelled from the spec: the permutation [RadixSort::sort] applies,
    entry [j] being the old index of the item that ends up at index [j]. *)
Definition sortPerm (keys : list Z) : list nat :=
  map snd (sortKeys (combine keys (seq 0 (List.length keys)))).

Definition permute {A} (d : A) (perm : list nat) (l : list A) : list A :=
  map (fun j => nth j l d) perm.

Definition keyBuffer (name : string) (s : Store) : option (list Z) :=
  if String.eqb name "p_cellID" then Some (p_cellID s)
  else if String.eqb name "p_cameraDist" then Some (p_cameraDist s)
  else None.

Definition set_keyBuffer (name : string) (l : list Z) (s : Store) : Store :=
  if String.eqb name "p_cellID" then set_p_cellID l s
  else if String.eqb name "p_cameraDist" then set_p_cameraDist l s
  else s.

Definition permuteBuffer (perm : list nat) (name : string) (s : Store)
  : option Store :=
  if String.eqb name "p_pos" then Some (set_p_pos (permute zero4 perm (p_pos s)) s)
  else if String.eqb name "p_vel" then Some (set_p_vel (permute zero4 perm (p_vel s)) s)
  else if String.eqb name "p_predPos"
       then Some (set_p_predPos (permute zero4 perm (p_predPos s)) s)
  else if String.eqb name "p_corrPos"
       then Some (set_p_corrPos (permute zero4 perm (p_corrPos s)) s)
  else None.

Fixpoint permuteBuffers (perm : list nat) (names : list string) (s : Store)
  : option Store :=
  match names with
  | [] => Some s
  | name :: r =>
      match permuteBuffer perm name s with
      | Some s' => permuteBuffers perm r s'
      | None => None
      end
  end.

(** Modelled from the spec: [RadixSort::sort(key, payloads)] on the
    buffers, the key buffer and every payload reordered by [sortPerm]. *)
Definition radixSort (key : string) (payload : list string) (s : Store)
  : option Store :=
  match keyBuffer key s with
  | None => None
  | Some keys =>
      let perm := sortPerm keys in
      match permuteBuffers perm payload s with
      | Some s' => Some (set_keyBuffer key (permute 0 perm keys) s')
      | None => None
      end
  end.

(** ** The program and its kernels *)

(** The constants the program is built with (the [-D] options). *)
Record Program := mkProgram {
  EFFECT_RADIUS_SQUARED : Z;
  ABS_WALL_POS : F32.float;
  GRID_RES : Z;
  GRID_NUM_CELLS : Z;
  NUM_MAX_PARTS_IN_CELL : Z
}.

Definition programOf (f : Fluids) : option Program :=
  match effectRadiusSquared f with
  | None => None
  | Some r2 =>
      Some (mkProgram r2
              (F32.div (F32.of_Z (m_boxSize (base f))) (F32.of_Z 2))
              (m_gridRes (base f)) (m_nbCells (base f))
              (m_maxNbPartsInCell f))
  end.

(** What the specification leaves to the implementer: the smoothing
    kernel and its gradient (functions of the offset between two
    particles), the rest density, the regularisation constant, the
    damping of a bounce and the quantisation of the camera distance. *)
Record Numerics := mkNumerics {
  smoothW : float4 -> F32.float;
  smoothGradW : float4 -> float4;
  restDensity : F32.float;
  regularisation : F32.float;
  bounceDamping : F32.float;
  cameraKey : float4 -> float4 -> Z
}.

Fixpoint updNth {A} (i : nat) (g : A -> A) (l : list A) : list A :=
  match l, i with
  | [], _ => []
  | a :: r, O => g a :: r
  | a :: r, S i' => a :: updNth i' g r
  end.

Definition sumF (l : list F32.float) : F32.float :=
  fold_left F32.add l F32.zero.
Definition sum4 (l : list float4) : float4 := fold_left vadd l zero4.

Section Kernels.

Variable prog : Program.
Variable num : Numerics.

(** Modelled from the spec: the Grid Index Builder of [fluids.cl].  The
    cell coordinate along an axis is the position measured from the
    lower wall in cells, clamped into [0, GRID_RES); the three
    coordinates are flattened row-major. *)
Definition cellCoord (x : F32.float) : Z :=
  let cellSize :=
    F32.div (F32.mul (F32.of_Z 2) (ABS_WALL_POS prog))
            (F32.of_Z (GRID_RES prog)) in
  let c := F32.floor (F32.div (F32.add x (ABS_WALL_POS prog)) cellSize) in
  Z.max 0 (Z.min (GRID_RES prog - 1) c).

(** Modelled from the spec: the row-major flattening of the Grid Index
    Builder of [fluids.cl]. *)
Definition flatten (cx cy cz : Z) : Z :=
  (cx * GRID_RES prog + cy) * GRID_RES prog + cz.

(** Modelled from the spec: the cell of a position, [f(position, grid
    resolution, box size)] of the Grid Index Builder of [fluids.cl]. *)
Definition cellOf (p : float4) : Z :=
  flatten (cellCoord (fx p)) (cellCoord (fy p)) (cellCoord (fz p)).

(** Modelled from the spec: kernel [fillCellIDs] (p_predPos, p_cellID). *)
Definition fillCellIDs (n : Z) (s : Store) : Store :=
  set_p_cellID
    (workItems n (fun i _ => cellOf (nth i (p_predPos s) zero4)) (p_cellID s))
    s.

(** Modelled from the spec: kernel [predictPosition]
    (p_pos, p_vel, time step, p_predPos). *)
Definition predictPosition (n : Z) (dt : F32.float) (s : Store) : Store :=
  set_p_predPos
    (workItems n
       (fun i _ => vadd (nth i (p_pos s) zero4)
                        (vscale (nth i (p_vel s) zero4) dt))
       (p_predPos s))
    s.

(** Modelled from the spec: the Cell Range Table kernels
    [flushStartEndCell], [fillStartCell], [fillEndCell], [adjustEndCell]
    over c_startEndPartID, one (start, end) pair per cell, end exclusive. *)
Definition flushStartEndCell (n : Z) (s : Store) : Store :=
  set_c_startEndPartID
    (workItems n (fun _ _ => (0, 0)) (c_startEndPartID s)) s.

(** Modelled from the spec: the test of [fillStartCell], index [i] is the
    first of a run of equal cell identifiers. *)
Definition startsRun (ids : list Z) (i : nat) : bool :=
  match i with
  | O => true
  | S j => negb (nth i ids 0 =? nth j ids 0)
  end.
(** Modelled from the spec: the test of [fillEndCell]. *)
Definition endsRun (n : nat) (ids : list Z) (i : nat) : bool :=
  (S i =? n)%nat || negb (nth i ids 0 =? nth (S i) ids 0).

(** Modelled from the spec: kernel [fillStartCell] (p_cellID,
    c_startEndPartID), the start of a cell is the first index of its run. *)
Definition fillStartCell (n : Z) (s : Store) : Store :=
  let ids := p_cellID s in
  set_c_startEndPartID
    (fold_left
       (fun tbl i =>
          if startsRun ids i
          then updNth (Z.to_nat (nth i ids 0))
                 (fun se => (Z.of_nat i, snd se)) tbl
          else tbl)
       (seq 0 (Z.to_nat n)) (c_startEndPartID s))
    s.

(** Modelled from the spec: kernel [fillEndCell] (p_cellID,
    c_startEndPartID), the end of a cell is one past the last index of its
    run. *)
Definition fillEndCell (n : Z) (s : Store) : Store :=
  let ids := p_cellID s in
  set_c_startEndPartID
    (fold_left
       (fun tbl i =>
          if endsRun (Z.to_nat n) ids i
          then updNth (Z.to_nat (nth i ids 0))
                 (fun se => (fst se, Z.of_nat i + 1)) tbl
          else tbl)
       (seq 0 (Z.to_nat n)) (c_startEndPartID s))
    s.

(** Modelled from the spec: the cap of [adjustEndCell], the end of a range
    longer than [NUM_MAX_PARTS_IN_CELL] is moved down to start + cap. *)
Definition capRange (se : Z * Z) : Z * Z :=
  if NUM_MAX_PARTS_IN_CELL prog <? snd se - fst se
  then (fst se, fst se + NUM_MAX_PARTS_IN_CELL prog)
  else se.

(** Modelled from the spec: kernel [adjustEndCell] (c_startEndPartID). *)
Definition adjustEndCell (n : Z) (s : Store) : Store :=
  set_c_startEndPartID
    (workItems n (fun _ se => capRange se) (c_startEndPartID s)) s.

(** Modelled from the spec: the neighbours of particle [i], found in the
    3x3x3 block of cells around its cell through the range table and
    kept when closer than the effect radius. *)
Definition adjacentCells (c : Z) : list Z :=
  let g := GRID_RES prog in
  let cz := c mod g in
  let cy := (c / g) mod g in
  let cx := c / (g * g) in
  flat_map
    (fun dx =>
       flat_map
         (fun dy =>
            flat_map
              (fun dz =>
                 let x := cx + dx in
                 let y := cy + dy in
                 let z := cz + dz in
                 if (0 <=? x) && (x <? g) && (0 <=? y) && (y <? g)
                    && (0 <=? z) && (z <? g)
                 then [flatten x y z] else [])
              [-1; 0; 1])
         [-1; 0; 1])
    [-1; 0; 1].

(** Modelled from the spec: the indices the range table gives for a
    cell. *)
Definition cellSlice (s : Store) (c : Z) : list nat :=
  let se := nth (Z.to_nat c) (c_startEndPartID s) (0, 0) in
  seq (Z.to_nat (fst se)) (Z.to_nat (snd se - fst se)).

(** Modelled from the spec: the offset from particle [j] to particle [i],
    between their predicted positions. *)
Definition offsetTo (s : Store) (i j : nat) : float4 :=
  vsub (nth i (p_predPos s) zero4) (nth j (p_predPos s) zero4).

(** Modelled from the spec: the neighbour set of the solver passes of
    [fluids.cl], cut off at the effect radius. *)
Definition neighbours (s : Store) (i : nat) : list nat :=
  filter
    (fun j => F32.ltb (norm2 (offsetTo s i j))
                      (F32.of_Z (EFFECT_RADIUS_SQUARED prog)))
    (flat_map (cellSlice s) (adjacentCells (nth i (p_cellID s) 0))).

(** Modelled from the spec: the four passes of a Jacobi round.  The
    constraint factor of a particle is kept in the [w] component of its
    p_corrPos entry. *)
Definition computeFluidDensity (n : Z) (s : Store) : Store :=
  set_p_density
    (workItems n
       (fun i _ =>
          sumF (map (fun j => smoothW num (offsetTo s i j)) (neighbours s i)))
       (p_density s))
    s.

(** Modelled from the spec: kernel [computeConstraintFactor] (p_density,
    p_predPos, p_corrPos), the density relative to the rest density over the
    regularised sum of squared gradients, negated. *)
Definition computeConstraintFactor (n : Z) (s : Store) : Store :=
  set_p_corrPos
    (workItems n
       (fun i old =>
          let c := F32.sub (F32.div (nth i (p_density s) F32.zero)
                                    (restDensity num))
                           (F32.of_Z 1) in
          let g := sumF (map (fun j => norm2 (smoothGradW num (offsetTo s i j)))
                             (neighbours s i)) in
          set_w old (F32.opp (F32.div c (F32.add g (regularisation num)))))
       (p_corrPos s))
    s.

(** Modelled from the spec: kernel [computeConstraintCorrection]
    (p_predPos, p_density, p_corrPos), the displacement summed over the
    neighbours from the particle's and each neighbour's constraint factor. *)
Definition computeConstraintCorrection (n : Z) (s : Store) : Store :=
  set_p_corrPos
    (workItems n
       (fun i old =>
          set_xyz old
            (sum4 (map (fun j =>
                          vscale (smoothGradW num (offsetTo s i j))
                            (F32.add (fw old)
                                     (fw (nth j (p_corrPos s) zero4))))
                       (neighbours s i))))
       (p_corrPos s))
    s.

(** Modelled from the spec: kernel [correctPosition] (p_corrPos, p_vel,
    p_predPos), the correction is added to the predicted position. *)
Definition correctPosition (n : Z) (s : Store) : Store :=
  set_p_predPos
    (workItems n (fun i old => vadd old (nth i (p_corrPos s) zero4))
       (p_predPos s))
    s.

(** Modelled from the spec: kernel [updateVel], the net displacement
    over the time step. *)
Definition updateVel (n : Z) (dt : F32.float) (s : Store) : Store :=
  set_p_vel
    (workItems n
       (fun i old =>
          set_xyz old
            (vdiv (vsub (nth i (p_predPos s) zero4) (nth i (p_pos s) zero4))
                  dt))
       (p_vel s))
    s.

(** Modelled from the spec: the Boundary Resolver.  [CyclicWall] moves a
    coordinate beyond a wall to the opposite face and leaves the velocity;
    [BouncingWall] clamps it to the wall and negates and damps the
    velocity along that axis. *)
Definition wrapAxis (x : F32.float) : F32.float :=
  let h := ABS_WALL_POS prog in
  if F32.leb h x then F32.sub x (F32.mul (F32.of_Z 2) h)
  else if F32.ltb x (F32.opp h) then F32.add x (F32.mul (F32.of_Z 2) h)
  else x.

(** Modelled from the spec: the test of [BouncingWall], the coordinate is
    beyond a wall. *)
Definition outside (x : F32.float) : bool :=
  F32.ltb (ABS_WALL_POS prog) x || F32.ltb x (F32.opp (ABS_WALL_POS prog)).

(** Modelled from the spec: a coordinate beyond a wall is put on it. *)
Definition clampAxis (x : F32.float) : F32.float :=
  let h := ABS_WALL_POS prog in
  if F32.ltb h x then h else if F32.ltb x (F32.opp h) then F32.opp h else x.

(** Modelled from the spec: the velocity along an axis is negated and
    damped when the coordinate is beyond a wall. *)
Definition bounceAxis (x v : F32.float) : F32.float :=
  if outside x then F32.opp (F32.mul v (bounceDamping num)) else v.

(** Modelled from the spec: kernel [updatePosWithCyclicWalls] (p_vel,
    p_predPos, time step, p_pos). *)
Definition updatePosWithCyclicWalls (n : Z) (dt : F32.float) (s : Store)
  : Store :=
  set_p_pos
    (workItems n
       (fun i old =>
          let p := nth i (p_predPos s) zero4 in
          mkFloat4 (wrapAxis (fx p)) (wrapAxis (fy p)) (wrapAxis (fz p))
                   (fw old))
       (p_pos s))
    s.

(** Modelled from the spec: kernel [updatePosWithBouncingWalls] (p_vel,
    p_predPos, time step, p_pos). *)
Definition updatePosWithBouncingWalls (n : Z) (dt : F32.float) (s : Store)
  : Store :=
  set_p_vel
    (workItems n
       (fun i v =>
          let p := nth i (p_predPos s) zero4 in
          mkFloat4 (bounceAxis (fx p) (fx v)) (bounceAxis (fy p) (fy v))
                   (bounceAxis (fz p) (fz v)) (fw v))
       (p_vel s))
    (set_p_pos
       (workItems n
          (fun i old =>
             let p := nth i (p_predPos s) zero4 in
             mkFloat4 (clampAxis (fx p)) (clampAxis (fy p))
                      (clampAxis (fz p)) (fw old))
          (p_pos s))
       s).

(** Modelled from the spec: kernel [flushGridDetector] (c_partDetector),
    no cell is occupied. *)
Definition flushGridDetector (n : Z) (s : Store) : Store :=
  set_c_partDetector (workItems n (fun _ _ => 0) (c_partDetector s)) s.

(** Modelled from the spec: kernel [fillGridDetector] (p_pos,
    c_partDetector), the cell of every particle is marked occupied. *)
Definition fillGridDetector (n : Z) (s : Store) : Store :=
  set_c_partDetector
    (fold_left
       (fun det i =>
          updNth (Z.to_nat (cellOf (nth i (p_pos s) zero4))) (fun _ => 1) det)
       (seq 0 (Z.to_nat n)) (c_partDetector s))
    s.

(** Modelled from the spec: kernel [fillCameraDist] (p_pos, u_cameraPos,
    p_cameraDist), the quantised distance of every particle to the camera. *)
Definition fillCameraDist (n : Z) (s : Store) : Store :=
  set_p_cameraDist
    (workItems n
       (fun i _ => cameraKey num (nth i (p_pos s) zero4) (u_cameraPos s))
       (p_cameraDist s))
    s.

(** A run of kernel [k] over [n] work items.  A kernel that takes the time
    step reads it from the slot [update] binds it to; without a value bound
    there the run fails.  The kernels that only [reset] runs are not
    modelled. *)
Definition withArg (k : string) (slot : Z) (s : Store)
    (g : F32.float -> Store) : option Store :=
  match lookup_arg k slot (kernelArgs s) with
  | Some v => Some (g v)
  | None => None
  end.

Definition runKernel (k : string) (n : Z) (s : Store) : option Store :=
  if String.eqb k KERNEL_FILL_CELL_ID then Some (fillCellIDs n s)
  else if String.eqb k KERNEL_PREDICT_POS
       then withArg k 2 s (fun dt => predictPosition n dt s)
  else if String.eqb k KERNEL_FLUSH_START_END_CELL
       then Some (flushStartEndCell n s)
  else if String.eqb k KERNEL_FILL_START_CELL then Some (fillStartCell n s)
  else if String.eqb k KERNEL_FILL_END_CELL then Some (fillEndCell n s)
  else if String.eqb k KERNEL_ADJUST_END_CELL then Some (adjustEndCell n s)
  else if String.eqb k KERNEL_DENSITY then Some (computeFluidDensity n s)
  else if String.eqb k KERNEL_CONSTRAINT_FACTOR
       then Some (computeConstraintFactor n s)
  else if String.eqb k KERNEL_CONSTRAINT_CORRECTION
       then Some (computeConstraintCorrection n s)
  else if String.eqb k KERNEL_CORRECT_POS then Some (correctPosition n s)
  else if String.eqb k KERNEL_UPDATE_VEL
       then withArg k 1 s (fun dt => updateVel n dt s)
  else if String.eqb k KERNEL_UPDATE_POS_CYCLIC
       then withArg k 1 s (fun dt => updatePosWithCyclicWalls n dt s)
  else if String.eqb k KERNEL_UPDATE_POS_BOUNCING
       then withArg k 1 s (fun dt => updatePosWithBouncingWalls n dt s)
  else if String.eqb k KERNEL_FLUSH_GRID_DETECTOR
       then Some (flushGridDetector n s)
  else if String.eqb k KERNEL_FILL_GRID_DETECTOR
       then Some (fillGridDetector n s)
  else if String.eqb k KERNEL_FILL_CAMERA_DIST then Some (fillCameraDist n s)
  else None.

(** The effect of one call, and of a log of calls, on the buffers. *)
Definition exec (c : Cmd) (s : Store) : option Store :=
  match c with
  | SetKernelArg k slot v => Some (bind_arg k slot v s)
  | RunKernel k n => runKernel k n s
  | Sort key payload => radixSort key payload s
  | CreateProgram _ _ _ | CreateGLBuffer _ _ _ | CreateBuffer _ _ _
  | CreateKernel _ _ _ | AcquireGLBuffers _ | ReleaseGLBuffers _ => Some s
  end.

Fixpoint execAll (l : list Cmd) (s : Store) : option Store :=
  match l with
  | [] => Some s
  | c :: r =>
      match exec c s with
      | Some s' => execAll r s'
      | None => None
      end
  end.

End Kernels.

(** ** A choice of numerics

    The smoothing kernel is the cube of the margin [h^2 - |r|^2] inside the
    effect radius [h] (the poly6 shape without its normalising factor) and
    zero outside; the gradient is its derivative; a particle on its own is
    at rest density. *)
Definition margin (r2 : Z) (r : float4) : F32.float :=
  F32.sub (F32.of_Z r2) (norm2 r).

Definition poly6W (r2 : Z) (r : float4) : F32.float :=
  let d := margin r2 r in
  if F32.ltb F32.zero d then F32.mul (F32.mul d d) d else F32.zero.

Definition poly6GradW (r2 : Z) (r : float4) : float4 :=
  let d := margin r2 r in
  if F32.ltb F32.zero d
  then vscale r (F32.mul (F32.of_Z (-6)) (F32.mul d d))
  else zero4.

Definition refNumerics (r2 : Z) : Numerics :=
  mkNumerics (poly6W r2) (poly6GradW r2)
    (poly6W r2 zero4) (F32.of_Z 100) (F32.lit 1 2)
    (fun p cam => F32.floor (norm2 (vsub p cam))).

(** ** Sample objects *)

Definition point (x y z : F32.float) : float4 := mkFloat4 x y z (F32.of_Z 1).

(** Two particles at rest, half a length unit apart, in a box of size 4
    cut into 2 x 2 x 2 cells. *)
Definition twoModel (now : Z) (b : Boundary) : Model :=
  mkModel true false now b dim3D (F32.of_Z 1) 4 2 8 2 2 1 2 3.

Definition twoFluids (now : Z) (b : Boundary) : Fluids :=
  mkFluids (twoModel now b) (F32.lit 16 10) (F32.lit 145 100)
    (F32.lit 16 10) true true true true 1000 2 4.

Definition twoProgram : Program :=
  mkProgram 4 (F32.of_Z 2) 2 8 1000.

Definition twoStore : Store :=
  let a := point (F32.lit 1 2) (F32.lit 1 2) (F32.lit 1 2) in
  let b := point (F32.of_Z 1) (F32.lit 1 2) (F32.lit 1 2) in
  mkStore (point (F32.of_Z 5) F32.zero F32.zero)
    [a; b] (repeat 0 8) [a; b] [zero4; zero4] [zero4; zero4]
    [0; 0] [0; 0] (repeat (0, 0) 8) [F32.zero; F32.zero] [].

(** The box of [twoFluids] with 1001 particles, one more than the cap the
    constructor sets, all at rest at the same place. *)
Definition crowdedFluids : Fluids :=
  mkFluids (mkModel true false 0 CyclicWall dim3D (F32.of_Z 1)
              4 2 8 1001 1001 1 2 3)
    (F32.lit 16 10) (F32.lit 145 100) (F32.lit 16 10)
    true true true true 1000 1001 4.

Definition crowdedStore : Store :=
  let a := point (F32.lit 1 2) (F32.lit 1 2) (F32.lit 1 2) in
  mkStore (point (F32.of_Z 5) F32.zero F32.zero)
    (repeat a 1001) (repeat 0 8) (repeat a 1001) (repeat zero4 1001)
    (repeat zero4 1001) (repeat 0 1001) (repeat 0 1001) (repeat (0, 0) 8)
    (repeat F32.zero 1001) [].

(** A clock that counts nanoseconds. *)
Definition ns_per_ms : Z := 1000000.

(** ** Observations on a log of calls *)

Definition isRunOf (k : string) (c : Cmd) : bool :=
  match c with
  | RunKernel k' _ => String.eqb k k'
  | _ => false
  end.

(** Does the log hold a run of kernel [k]? *)
Definition runsKernel (k : string) (l : list Cmd) : bool :=
  existsb (isRunOf k) l.

(** The calls that make the device work: kernel runs and sorts. *)
Definition isDispatch (c : Cmd) : bool :=
  match c with
  | RunKernel _ _ | Sort _ _ => true
  | _ => false
  end.
Definition dispatches (l : list Cmd) : list Cmd := filter isDispatch l.

(** The four passes of one solver round over [n] particles. *)
Definition roundCalls (n : Z) : list Cmd :=
  [ RunKernel KERNEL_DENSITY n;
    RunKernel KERNEL_CONSTRAINT_FACTOR n;
    RunKernel KERNEL_CONSTRAINT_CORRECTION n;
    RunKernel KERNEL_CORRECT_POS n ].

Definition solverKernels : list string :=
  [ KERNEL_DENSITY; KERNEL_CONSTRAINT_FACTOR;
    KERNEL_CONSTRAINT_CORRECTION; KERNEL_CORRECT_POS ].

Definition runsSolverKernel (l : list Cmd) : bool :=
  existsb (fun k => runsKernel k l) solverKernels.

Definition sampleModel (pause : bool) (b : Boundary) : Model :=
  mkModel true pause 0 b dim3D (F32.of_Z 1) 10 16 4096 8 4 1 2 3.

Definition sampleFluids (pause simplified : bool) (b : Boundary) : Fluids :=
  mkFluids (sampleModel pause b) (F32.lit 16 10) (F32.lit 145 100)
    (F32.lit 16 10) true true true simplified 1000 8 10.

(** Does the call write the cell range table? *)
Definition writesRangeTable (c : Cmd) : bool :=
  match c with
  | RunKernel k _ =>
      String.eqb k KERNEL_FLUSH_START_END_CELL
      || String.eqb k KERNEL_FILL_START_CELL
      || String.eqb k KERNEL_FILL_END_CELL
      || String.eqb k KERNEL_ADJUST_END_CELL
  | _ => false
  end.

Definition isSortBy (key : string) (c : Cmd) : bool :=
  match c with
  | Sort key' _ => String.eqb key key'
  | _ => false
  end.

(** The calls of a log up to and including the first one that [p] holds of. *)
Fixpoint throughFirst (p : Cmd -> bool) (l : list Cmd) : list Cmd :=
  match l with
  | [] => []
  | c :: r => if p c then [c] else c :: throughFirst p r
  end.

(** The length of the range of cell [c] in a table. *)
Definition rangeLength (tbl : list (Z * Z)) (c : nat) : Z :=
  snd (nth c tbl (0, 0)) - fst (nth c tbl (0, 0)).

(** Two particles at rest in different cells, the camera on the side of
    the one in the higher cell; p_predPos still as allocated. *)
Definition apartStore : Store :=
  let a := point (F32.of_Z (-1)) (F32.lit 1 2) (F32.lit 1 2) in
  let b := point (F32.of_Z 1) (F32.lit 1 2) (F32.lit 1 2) in
  mkStore (point (F32.of_Z 5) F32.zero F32.zero)
    [a; b] (repeat 0 8) [zero4; zero4] [zero4; zero4] [zero4; zero4]
    [0; 0] [0; 0] (repeat (0, 0) 8) [F32.zero; F32.zero] [].

(** An initialised object with box size [box] and grid resolution [grid]. *)
Definition boxFluids (box grid : Z) : Fluids :=
  mkFluids (mkModel true false 0 BouncingWall dim3D (F32.of_Z 1)
              box grid 4096 8 4 1 2 3)
    (F32.lit 16 10) (F32.lit 145 100) (F32.lit 16 10)
    true true true true 1000 8 box.

(** The base object [Model(params)] leaves before [Fluids] is set up. *)
Definition rawModel (b : Boundary) : Model :=
  mkModel false false 0 b dim3D (F32.of_Z 1) 10 16 4096 8 4 1 2 3.

(** ** Observations across the member functions *)

Definition isAcquireOrRelease (c : Cmd) : bool :=
  match c with
  | AcquireGLBuffers _ | ReleaseGLBuffers _ => true
  | _ => false
  end.

(** A log that acquires the shared buffers [names] before its first
    dispatch, holds them over every dispatch and releases them with its
    last call. *)
Definition bracketed (names : list string) (l : list Cmd) : Prop :=
  exists pre mid,
    l = pre ++ AcquireGLBuffers names :: mid ++ [ ReleaseGLBuffers names ] /\
    dispatches pre = [] /\
    existsb isAcquireOrRelease (pre ++ mid) = false.

(** The buffer names kernel [k] was created with, in a log of calls. *)
Fixpoint argsOfKernel (k : string) (l : list Cmd) : option (list string) :=
  match l with
  | [] => None
  | CreateKernel _ k' args :: r =>
      if String.eqb k k' then Some args else argsOfKernel k r
  | _ :: r => argsOfKernel k r
  end.

(** What [createKernels] put in slot [slot] of kernel [k]: a buffer name,
    the empty name for a scalar, or nothing. *)
Definition slotName (f : Fluids) (k : string) (slot : Z) : option string :=
  match argsOfKernel k (snd (createKernels f)) with
  | Some args => nth_error args (Z.to_nat slot)
  | None => None
  end.

(** The names of the kernels and of the buffers a log creates. *)
Definition kernelsCreated (l : list Cmd) : list string :=
  flat_map (fun c => match c with
                     | CreateKernel _ k _ => [k]
                     | _ => []
                     end) l.
Definition glBuffersCreated (l : list Cmd) : list string :=
  flat_map (fun c => match c with
                     | CreateGLBuffer name _ _ => [name]
                     | _ => []
                     end) l.
Definition buffersCreated (l : list Cmd) : list string :=
  flat_map (fun c => match c with
                     | CreateGLBuffer name _ _ | CreateBuffer name _ _ => [name]
                     | _ => []
                     end) l.
(** The buffer names the kernels of a log are created with. *)
Definition namesBound (l : list Cmd) : list string :=
  flat_map (fun c => match c with
                     | CreateKernel _ _ args => args
                     | _ => []
                     end) l.

Definition isCreate (c : Cmd) : bool :=
  match c with
  | CreateProgram _ _ _ | CreateGLBuffer _ _ _ | CreateBuffer _ _ _
  | CreateKernel _ _ _ => true
  | _ => false
  end.

(** The kernels [update] runs once per cell, and the kernels [reset] runs
    over the whole capacity. *)
Definition cellKernels : list string :=
  [ KERNEL_FLUSH_START_END_CELL; KERNEL_ADJUST_END_CELL;
    KERNEL_FLUSH_GRID_DETECTOR ].
Definition capacityKernels : list string :=
  [ KERNEL_INFINITE_POS; KERNEL_RESET_CELL_ID; KERNEL_RESET_CAMERA_DIST ].

Definition inNames (k : string) (l : list string) : bool :=
  existsb (String.eqb k) l.




Definition validBoundary (b : Boundary) : bool :=
  match b with
  | CyclicWall | BouncingWall => true
  | OtherBoundary _ => false
  end.

(** [update] called at each of [times] in turn: the object in the end and
    all the calls made. *)
Fixpoint runTicks (ticks : Z) (f : Fluids) (times : list Z)
  : Fluids * list Cmd :=
  match times with
  | [] => (f, [])
  | t :: r =>
      let (f1, l1) := update ticks f t in
      let (f2, l2) := runTicks ticks f1 r in
      (f2, l1 ++ l2)
  end.

(** The calls of a paused tick over [n] particles. *)
Definition pausedCalls (n : Z) : list Cmd :=
  [ AcquireGLBuffers [ "p_pos"; "c_partDetector"; "u_cameraPos" ];
    RunKernel KERNEL_FILL_CAMERA_DIST n;
    Sort "p_cameraDist" [ "p_pos"; "p_vel" ];
    ReleaseGLBuffers [ "p_pos"; "c_partDetector"; "u_cameraPos" ] ].

(** ** Single precision rounding, for the clamp of the time step *)

(** The second half of [binary_round_aux]: the rounded mantissa [m1] at
    exponent [e1] is brought back to 24 digits and classified. *)
Definition roundTail (sx : bool) (m1 e1 : Z) : spec_float :=
  let (mrs, e2) := shr_fexp 24 128 m1 e1 loc_Exact in
  match shr_m mrs with
  | Z0 => S754_zero sx
  | Zpos m => if e2 <=? 128 - 24 then S754_finite sx m e2 else S754_infinity sx
  | Zneg _ => S754_nan
  end.

(** A positive float of 24 digits with an exponent of at least [lo], or
    plus infinity. *)
Definition normalFrom (lo : Z) (x : spec_float) : Prop :=
  x = S754_infinity false \/
  exists m e, x = S754_finite false m e /\
              Zpos (digits2_pos m) = 24 /\ lo <= e.

(** A float that is negative, a zero or not a number. *)
Definition notPositive (x : spec_float) : Prop :=
  match x with
  | S754_nan => True
  | S754_zero _ => True
  | S754_infinity s | S754_finite s _ _ => s = true
  end.

(** The test of the clamp, [timeStep > 30.0f], on [ms] milliseconds. *)
Definition clampTest (ms : Z) : bool :=
  F32.ltb (F32.of_Z 30) (F32.div (F32.of_Z ms) (F32.of_Z 16)).

(** * Properties *)

Lemma update_paused_calls ticks f now :
  m_init (base f) = true -> m_pause (base f) = true ->
  update ticks f now =
    (f, [ AcquireGLBuffers [ "p_pos"; "c_partDetector"; "u_cameraPos" ];
          RunKernel KERNEL_FILL_CAMERA_DIST (m_currNbParticles (base f));
          Sort "p_cameraDist" [ "p_pos"; "p_vel" ];
          ReleaseGLBuffers [ "p_pos"; "c_partDetector"; "u_cameraPos" ] ]).
Proof.
  intros Hi Hp. unfold update. rewrite Hi, Hp. reflexivity.
Qed.

Lemma update_running_calls ticks f now :
  m_init (base f) = true -> m_pause (base f) = false ->
  snd (update ticks f now) =
    (AcquireGLBuffers [ "p_pos"; "c_partDetector"; "u_cameraPos" ]
     :: snd (physics f (timeStepOf ticks f now))
     ++ [ RunKernel KERNEL_FILL_CAMERA_DIST (m_currNbParticles (base f));
          Sort "p_cameraDist" [ "p_pos"; "p_vel" ];
          ReleaseGLBuffers [ "p_pos"; "c_partDetector"; "u_cameraPos" ] ])%list.
Proof.
  intros Hi Hp. unfold update. rewrite Hi, Hp. cbn [negb when snd].
  destruct (physics f (timeStepOf ticks f now)) as [[] l]. reflexivity.
Qed.

Lemma physics_calls f ts :
  snd (physics f ts) =
    ([ RunKernel KERNEL_FILL_CELL_ID (m_currNbParticles (base f));
       Sort "p_cellID" [ "p_pos"; "p_vel" ];
       SetKernelArg KERNEL_PREDICT_POS 2 ts;
       RunKernel KERNEL_PREDICT_POS (m_currNbParticles (base f));
       RunKernel KERNEL_FLUSH_START_END_CELL (m_nbCells (base f));
       RunKernel KERNEL_FILL_START_CELL (m_currNbParticles (base f));
       RunKernel KERNEL_FILL_END_CELL (m_currNbParticles (base f)) ]
     ++ (if m_simplifiedMode f
         then [ RunKernel KERNEL_ADJUST_END_CELL (m_nbCells (base f)) ]
         else [])
     ++ roundCalls (m_currNbParticles (base f))
     ++ roundCalls (m_currNbParticles (base f))
     ++ roundCalls (m_currNbParticles (base f))
     ++ [ SetKernelArg KERNEL_UPDATE_VEL 1 ts;
          RunKernel KERNEL_UPDATE_VEL (m_currNbParticles (base f)) ]
     ++ snd (updatePos (m_boundary (base f)) ts (m_currNbParticles (base f)))
     ++ [ RunKernel KERNEL_FLUSH_GRID_DETECTOR (m_nbCells (base f));
          RunKernel KERNEL_FILL_GRID_DETECTOR (m_currNbParticles (base f)) ])%list.
Proof.
  unfold physics.
  destruct (m_simplifiedMode f); destruct (m_boundary (base f)); reflexivity.
Qed.


(** ** The calls of a tick *)

Ltac tick_cases f :=
  destruct (m_simplifiedMode f); destruct (m_boundary (base f)).

Lemma runsKernel_app k l1 l2 :
  runsKernel k (l1 ++ l2) = runsKernel k l1 || runsKernel k l2.
Proof. unfold runsKernel. apply existsb_app. Qed.




Lemma physics_args f ts k slot v :
  In (SetKernelArg k slot v) (snd (physics f ts)) -> v = ts.
Proof.
  unfold physics. tick_cases f; cbn; intros H;
    repeat (destruct H as [H | H]; [ try discriminate H; now inversion H | ]);
    contradiction.
Qed.

(** ** C1: the time step after a long gap *)





(** Just below the threshold the step is kept: 480 ms give exactly 30. *)
Example time_step_at_threshold :
  timeStepOf ns_per_ms (sampleFluids false true BouncingWall) 480000000
    = F32.of_Z 30.
Proof. vm_compute. reflexivity. Qed.

(** ** Running a log of calls on the device *)

Lemma execAll_app prog num l1 l2 s :
  execAll prog num (l1 ++ l2) s =
    match execAll prog num l1 s with
    | Some s1 => execAll prog num l2 s1
    | None => None
    end.
Proof.
  revert s. induction l1 as [| c l1 IH]; intros s; cbn; [ reflexivity | ].
  destruct (exec prog num c s); [ apply IH | reflexivity ].
Qed.

(** Every tick runs to its end on the device, whatever the buffers hold. *)
Lemma tick_executes prog num ticks f now s :
  exists s', execAll prog num (snd (update ticks f now)) s = Some s'.
Proof.
  destruct (m_init (base f)) eqn:Hi;
    [ | unfold update; rewrite Hi; eexists; reflexivity ].
  destruct (m_pause (base f)) eqn:Hp.
  - rewrite (update_paused_calls ticks f now Hi Hp). eexists. cbn [snd].
    reflexivity.
  - rewrite (update_running_calls ticks f now Hi Hp), physics_calls.
    generalize (timeStepOf ticks f now) as ts. intros ts.
    tick_cases f; eexists; cbn [app roundCalls updatePos snd call bind ret].
    all: reflexivity.
Qed.

(** On the device, with the kernels as the spec describes them and a
    smoothing kernel chosen: a tick after a gap of one second (time step
    dropped to zero) is run on two particles at rest half a length unit
    apart.  The solver rounds push them apart and the position update
    stores the result: no position the buffer holds after the tick is one
    it held before. *)
Lemma clamped_tick_moves_particles :
  m_init (base (twoFluids 0 CyclicWall)) = true /\
  m_pause (base (twoFluids 0 CyclicWall)) = false /\
  F32.ltb (F32.of_Z 30)
    (rawTimeStep ns_per_ms (twoFluids 0 CyclicWall) 1000000000) = true /\
  programOf (twoFluids 0 CyclicWall) = Some twoProgram /\
  exists s',
    execAll twoProgram (refNumerics 4)
      (snd (update ns_per_ms (twoFluids 0 CyclicWall) 1000000000)) twoStore
      = Some s' /\
    forall p, In p (p_pos s') -> ~ In p (p_pos twoStore).
Proof.
  repeat (split; [ vm_compute; reflexivity | ]).
  destruct (execAll twoProgram (refNumerics 4)
              (snd (update ns_per_ms (twoFluids 0 CyclicWall) 1000000000))
              twoStore) as [s' |] eqn:E;
    vm_compute in E; [ | discriminate E ].
  injection E as E. subst s'. eexists. split; [ reflexivity | ].
  cbn [p_pos]. intros p [H | [H | []]] [H' | [H' | []]];
    subst p; vm_compute in H'; discriminate H'.
Qed.

(** ** C2: the keys of the physics sort *)

(** In an unpaused tick the cell identifiers are filled and the buffers
    sorted by them before the positions of the tick are predicted. *)
Lemma cell_sort_precedes_prediction ticks f now :
  m_init (base f) = true -> m_pause (base f) = false ->
  exists rest,
    snd (update ticks f now) =
      [ AcquireGLBuffers [ "p_pos"; "c_partDetector"; "u_cameraPos" ];
        RunKernel KERNEL_FILL_CELL_ID (m_currNbParticles (base f));
        Sort "p_cellID" [ "p_pos"; "p_vel" ];
        SetKernelArg KERNEL_PREDICT_POS 2 (timeStepOf ticks f now);
        RunKernel KERNEL_PREDICT_POS (m_currNbParticles (base f)) ] ++ rest.
Proof.
  intros Hi Hp. rewrite (update_running_calls ticks f now Hi Hp), physics_calls.
  eexists. cbn [app]. reflexivity.
Qed.

(** C2, on the device: two particles at rest in cells 3 and 7, two ticks
    16 ms apart.  At the sort of the second tick the keys are [3; 7], the
    cells of what the first tick left in p_predPos, while the camera sort
    has swapped the particles: the positions predicted next for slots 0
    and 1 lie in cells 7 and 3. *)
Lemma cell_keys_from_previous_tick :
  let f0 := twoFluids 0 CyclicWall in
  let tick1 := update ns_per_ms f0 16000000 in
  let tick2 := update ns_per_ms (fst tick1) 32000000 in
  exists s1 atSort afterPredict,
    execAll twoProgram (refNumerics 4) (snd tick1) apartStore = Some s1 /\
    execAll twoProgram (refNumerics 4)
      (throughFirst (isSortBy "p_cellID") (snd tick2)) s1 = Some atSort /\
    execAll twoProgram (refNumerics 4)
      (throughFirst (isRunOf KERNEL_PREDICT_POS) (snd tick2)) s1
      = Some afterPredict /\
    p_cellID atSort = [3; 7] /\
    p_pos afterPredict = p_pos atSort /\
    map (cellOf twoProgram) (p_predPos afterPredict) = [7; 3].
Proof.
  cbv zeta.
  destruct (execAll twoProgram (refNumerics 4)
              (snd (update ns_per_ms (twoFluids 0 CyclicWall) 16000000))
              apartStore) as [s1 |] eqn:E1;
    vm_compute in E1; [ | discriminate E1 ].
  injection E1 as E1. subst s1.
  match goal with
  | |- exists s a b, Some ?v = Some s /\ _ => exists v
  end.
  match goal with
  | |- exists a b, _ /\ ?x = Some a /\ ?y = Some b /\ _ =>
      destruct x as [atSort |] eqn:E2; vm_compute in E2; [ | discriminate E2 ];
      destruct y as [afterPredict |] eqn:E3; vm_compute in E3;
        [ | discriminate E3 ]
  end.
  injection E2 as E2. injection E3 as E3. subst atSort afterPredict.
  do 2 eexists. split; [ reflexivity | ].
  split; [ reflexivity | ]. split; [ reflexivity | ].
  repeat split; vm_compute; reflexivity.
Qed.

(** ** C3: the rounds of the solver *)

(** C3: an unpaused tick runs exactly 3 solver rounds one after the other,
    each made of the density, constraint factor, constraint correction and
    position correction passes in this order; no solver kernel runs before
    or after them. *)
Theorem three_jacobi_rounds ticks f now :
  m_init (base f) = true -> m_pause (base f) = false ->
  exists pre post,
    snd (update ticks f now) =
      pre
      ++ List.concat (repeat (roundCalls (m_currNbParticles (base f))) 3%nat)
      ++ post /\
    runsSolverKernel pre = false /\ runsSolverKernel post = false.
Proof.
  intros Hi Hp. rewrite (update_running_calls ticks f now Hi Hp), physics_calls.
  generalize (timeStepOf ticks f now) as ts. intros ts.
  exists
    ([ AcquireGLBuffers [ "p_pos"; "c_partDetector"; "u_cameraPos" ];
       RunKernel KERNEL_FILL_CELL_ID (m_currNbParticles (base f));
       Sort "p_cellID" [ "p_pos"; "p_vel" ];
       SetKernelArg KERNEL_PREDICT_POS 2 ts;
       RunKernel KERNEL_PREDICT_POS (m_currNbParticles (base f));
       RunKernel KERNEL_FLUSH_START_END_CELL (m_nbCells (base f));
       RunKernel KERNEL_FILL_START_CELL (m_currNbParticles (base f));
       RunKernel KERNEL_FILL_END_CELL (m_currNbParticles (base f)) ]
     ++ (if m_simplifiedMode f
         then [ RunKernel KERNEL_ADJUST_END_CELL (m_nbCells (base f)) ]
         else [])).
  exists
    ([ SetKernelArg KERNEL_UPDATE_VEL 1 ts;
       RunKernel KERNEL_UPDATE_VEL (m_currNbParticles (base f)) ]
     ++ snd (updatePos (m_boundary (base f)) ts (m_currNbParticles (base f)))
     ++ [ RunKernel KERNEL_FLUSH_GRID_DETECTOR (m_nbCells (base f));
          RunKernel KERNEL_FILL_GRID_DETECTOR (m_currNbParticles (base f));
          RunKernel KERNEL_FILL_CAMERA_DIST (m_currNbParticles (base f));
          Sort "p_cameraDist" [ "p_pos"; "p_vel" ];
          ReleaseGLBuffers [ "p_pos"; "c_partDetector"; "u_cameraPos" ] ]).
  repeat split; tick_cases f; reflexivity.
Qed.

Lemma three_jacobi_rounds_witness :
  m_init (base (sampleFluids false true CyclicWall)) = true /\
  m_pause (base (sampleFluids false true CyclicWall)) = false /\
  exists pre post,
    snd (update ns_per_ms (sampleFluids false true CyclicWall) 16000000) =
      pre
      ++ List.concat (repeat (roundCalls 4) 3%nat)
      ++ post /\
    runsSolverKernel pre = false /\ runsSolverKernel post = false.
Proof.
  split; [ reflexivity | ]. split; [ reflexivity | ].
  apply (three_jacobi_rounds ns_per_ms (sampleFluids false true CyclicWall)
           16000000); reflexivity.
Defined.

(** ** C5: a paused tick *)

(** C5: a tick of an initialised, paused object leaves the object as it is
    and makes four calls: it acquires the shared buffers, fills the camera
    distances, sorts positions and velocities by them and releases the
    buffers; the only kernel run and the only sort are these.  Paused or
    not, a tick ends with the camera distance fill and sort. *)
Theorem paused_tick_only_sorts_for_camera ticks f now :
  m_init (base f) = true ->
  (m_pause (base f) = true ->
     update ticks f now =
       (f, [ AcquireGLBuffers [ "p_pos"; "c_partDetector"; "u_cameraPos" ];
             RunKernel KERNEL_FILL_CAMERA_DIST (m_currNbParticles (base f));
             Sort "p_cameraDist" [ "p_pos"; "p_vel" ];
             ReleaseGLBuffers [ "p_pos"; "c_partDetector"; "u_cameraPos" ] ])
     /\ dispatches (snd (update ticks f now)) =
          [ RunKernel KERNEL_FILL_CAMERA_DIST (m_currNbParticles (base f));
            Sort "p_cameraDist" [ "p_pos"; "p_vel" ] ]) /\
  exists pre,
    snd (update ticks f now) =
      pre ++ [ RunKernel KERNEL_FILL_CAMERA_DIST (m_currNbParticles (base f));
               Sort "p_cameraDist" [ "p_pos"; "p_vel" ];
               ReleaseGLBuffers [ "p_pos"; "c_partDetector"; "u_cameraPos" ] ].
Proof.
  intros Hi. split.
  - intros Hp. rewrite (update_paused_calls ticks f now Hi Hp).
    split; reflexivity.
  - destruct (m_pause (base f)) eqn:Hp.
    + rewrite (update_paused_calls ticks f now Hi Hp).
      exists [ AcquireGLBuffers [ "p_pos"; "c_partDetector"; "u_cameraPos" ] ].
      reflexivity.
    + rewrite (update_running_calls ticks f now Hi Hp).
      exists (AcquireGLBuffers [ "p_pos"; "c_partDetector"; "u_cameraPos" ]
              :: snd (physics f (timeStepOf ticks f now))).
      reflexivity.
Qed.

Lemma paused_tick_only_sorts_for_camera_witness :
  m_init (base (sampleFluids true true BouncingWall)) = true /\
  m_pause (base (sampleFluids true true BouncingWall)) = true /\
  dispatches (snd (update ns_per_ms (sampleFluids true true BouncingWall)
                     16000000)) =
    [ RunKernel KERNEL_FILL_CAMERA_DIST 4;
      Sort "p_cameraDist" [ "p_pos"; "p_vel" ] ].
Proof.
  split; [ reflexivity | ]. split; [ reflexivity | ].
  apply (paused_tick_only_sorts_for_camera ns_per_ms
           (sampleFluids true true BouncingWall) 16000000); reflexivity.
Defined.

(** ** C9: before the object is initialised *)

(** C9: while [m_init] is not set, [reset] and [update] make no call and
    leave the object as it is. *)
Theorem uninitialised_calls_do_nothing ticks f now :
  m_init (base f) = false ->
  reset f now = (f, []) /\ update ticks f now = (f, []).
Proof.
  intros Hi. unfold reset, update. rewrite Hi. split; reflexivity.
Qed.

Lemma uninitialised_calls_do_nothing_witness :
  m_init (base (set_init false (sampleFluids false true BouncingWall))) = false /\
  reset (set_init false (sampleFluids false true BouncingWall)) 5 =
    (set_init false (sampleFluids false true BouncingWall), []) /\
  update ns_per_ms (set_init false (sampleFluids false true BouncingWall)) 5 =
    (set_init false (sampleFluids false true BouncingWall), []).
Proof.
  split; [ reflexivity | ].
  apply (uninitialised_calls_do_nothing ns_per_ms
           (set_init false (sampleFluids false true BouncingWall)) 5).
  reflexivity.
Defined.

(** Once set up the object stays initialised, so the ticks of an object
    that exists are ticks with [m_init] set. *)
Lemma constructed_is_initialised m maxNb box now f l :
  Fluids_new m maxNb box now = Some (f, l) -> m_init (base f) = true.
Proof.
  unfold Fluids_new. destruct (createProgram _); [ | discriminate ].
  intros H. injection H as <- _. reflexivity.
Qed.

Lemma reset_keeps_initialised f now :
  m_init (base (fst (reset f now))) = m_init (base f).
Proof.
  unfold reset. destruct (m_init (base f)) eqn:Hi; cbn; exact Hi.
Qed.

Lemma update_keeps_initialised ticks f now :
  m_init (base (fst (update ticks f now))) = m_init (base f).
Proof.
  unfold update. destruct (m_init (base f)) eqn:Hi; cbn; [ | exact Hi ].
  destruct (m_pause (base f)); cbn; exact Hi.
Qed.

(** ** C8: the occupancy grid *)

(** C8 as stated fails: a paused tick runs neither grid detector kernel. *)
Lemma paused_tick_keeps_grid_detector :
  m_init (base (sampleFluids true true BouncingWall)) = true /\
  m_pause (base (sampleFluids true true BouncingWall)) = true /\
  runsKernel KERNEL_FLUSH_GRID_DETECTOR
    (snd (update ns_per_ms (sampleFluids true true BouncingWall) 16000000))
    = false /\
  runsKernel KERNEL_FILL_GRID_DETECTOR
    (snd (update ns_per_ms (sampleFluids true true BouncingWall) 16000000))
    = false.
Proof. repeat split; reflexivity. Qed.

(** C8, as the code has it: a tick of an initialised object flushes and
    refills the grid detector exactly when the object is not paused; it
    does so right after the position update, the flush over the cells
    first, then the fill over the particles. *)
Theorem grid_detector_refreshed_when_unpaused ticks f now :
  m_init (base f) = true ->
  runsKernel KERNEL_FLUSH_GRID_DETECTOR (snd (update ticks f now))
    = negb (m_pause (base f)) /\
  runsKernel KERNEL_FILL_GRID_DETECTOR (snd (update ticks f now))
    = negb (m_pause (base f)) /\
  (m_pause (base f) = false ->
   exists pre,
     snd (update ticks f now) =
       pre
       ++ snd (updatePos (m_boundary (base f)) (timeStepOf ticks f now)
                 (m_currNbParticles (base f)))
       ++ [ RunKernel KERNEL_FLUSH_GRID_DETECTOR (m_nbCells (base f));
            RunKernel KERNEL_FILL_GRID_DETECTOR (m_currNbParticles (base f));
            RunKernel KERNEL_FILL_CAMERA_DIST (m_currNbParticles (base f));
            Sort "p_cameraDist" [ "p_pos"; "p_vel" ];
            ReleaseGLBuffers [ "p_pos"; "c_partDetector"; "u_cameraPos" ] ] /\
     runsKernel KERNEL_FLUSH_GRID_DETECTOR pre = false /\
     runsKernel KERNEL_FILL_GRID_DETECTOR pre = false).
Proof.
  intros Hi. destruct (m_pause (base f)) eqn:Hp.
  - rewrite (update_paused_calls ticks f now Hi Hp).
    repeat split; try reflexivity. discriminate.
  - rewrite (update_running_calls ticks f now Hi Hp), physics_calls.
    generalize (timeStepOf ticks f now) as ts. intros ts.
    split; [ tick_cases f; reflexivity | ].
    split; [ tick_cases f; reflexivity | ].
    intros _.
    exists
      ([ AcquireGLBuffers [ "p_pos"; "c_partDetector"; "u_cameraPos" ];
         RunKernel KERNEL_FILL_CELL_ID (m_currNbParticles (base f));
         Sort "p_cellID" [ "p_pos"; "p_vel" ];
         SetKernelArg KERNEL_PREDICT_POS 2 ts;
         RunKernel KERNEL_PREDICT_POS (m_currNbParticles (base f));
         RunKernel KERNEL_FLUSH_START_END_CELL (m_nbCells (base f));
         RunKernel KERNEL_FILL_START_CELL (m_currNbParticles (base f));
         RunKernel KERNEL_FILL_END_CELL (m_currNbParticles (base f)) ]
       ++ (if m_simplifiedMode f
           then [ RunKernel KERNEL_ADJUST_END_CELL (m_nbCells (base f)) ]
           else [])
       ++ roundCalls (m_currNbParticles (base f))
       ++ roundCalls (m_currNbParticles (base f))
       ++ roundCalls (m_currNbParticles (base f))
       ++ [ SetKernelArg KERNEL_UPDATE_VEL 1 ts;
            RunKernel KERNEL_UPDATE_VEL (m_currNbParticles (base f)) ]).
    repeat split; tick_cases f; reflexivity.
Qed.

Lemma grid_detector_refreshed_when_unpaused_witness :
  m_init (base (sampleFluids false true BouncingWall)) = true /\
  runsKernel KERNEL_FLUSH_GRID_DETECTOR
    (snd (update ns_per_ms (sampleFluids false true BouncingWall) 16000000))
    = negb (m_pause (base (sampleFluids false true BouncingWall))).
Proof.
  split; [ reflexivity | ].
  apply (grid_detector_refreshed_when_unpaused ns_per_ms
           (sampleFluids false true BouncingWall) 16000000).
  reflexivity.
Defined.

(** ** C7: the boundary mode *)

(** C7 as stated fails: the constructor sets up an object whose boundary
    mode is neither of the two enumerators, and a tick of this object runs
    (velocity update, grid detector, camera sort) without any position
    update kernel. *)
Lemma other_boundary_is_accepted :
  exists f l,
    Fluids_new (rawModel (OtherBoundary 2)) 8 10 0 = Some (f, l) /\
    m_init (base f) = true /\
    m_boundary (base f) = OtherBoundary 2 /\
    runsKernel KERNEL_UPDATE_VEL (snd (update ns_per_ms f 16000000)) = true /\
    runsKernel KERNEL_UPDATE_POS_CYCLIC (snd (update ns_per_ms f 16000000))
      = false /\
    runsKernel KERNEL_UPDATE_POS_BOUNCING (snd (update ns_per_ms f 16000000))
      = false.
Proof. do 2 eexists. repeat split; reflexivity. Qed.

(** C7, as the code has it: the constructor keeps whatever boundary mode
    the base object holds and fails only when the grid resolution squared
    is zero, whatever the mode; an unpaused tick binds the
    time step to and runs the cyclic kernel for [CyclicWall], the bouncing
    kernel for [BouncingWall], and for any other value makes no call for
    the position update while the rest of the tick is as ever. *)
Theorem boundary_mode_selects_kernel ticks f now :
  m_init (base f) = true -> m_pause (base f) = false ->
  (forall m maxNb box t g l,
      Fluids_new m maxNb box t = Some (g, l) ->
      m_boundary (base g) = m_boundary m) /\
  (forall m maxNb box t,
      Fluids_new m maxNb box t = None <->
      size_mul (m_gridRes m) (m_gridRes m) = 0) /\
  (runsKernel KERNEL_UPDATE_POS_CYCLIC (snd (update ticks f now)) = true
   <-> m_boundary (base f) = CyclicWall) /\
  (runsKernel KERNEL_UPDATE_POS_BOUNCING (snd (update ticks f now)) = true
   <-> m_boundary (base f) = BouncingWall) /\
  (forall raw,
      m_boundary (base f) = OtherBoundary raw ->
      snd (updatePos (m_boundary (base f)) (timeStepOf ticks f now)
             (m_currNbParticles (base f))) = [] /\
      runsKernel KERNEL_UPDATE_VEL (snd (update ticks f now)) = true /\
      runsKernel KERNEL_FILL_GRID_DETECTOR (snd (update ticks f now)) = true).
Proof.
  intros Hi Hp. split.
  { intros m maxNb box t g l. unfold Fluids_new.
    destruct (createProgram _); [ | discriminate ].
    intros H. injection H as <- _. reflexivity. }
  split.
  { intros m maxNb box t.
    unfold Fluids_new, createProgram, effectRadiusSquared, size_div.
    cbn [base m_boxSize m_gridRes].
    destruct (size_mul (m_gridRes m) (m_gridRes m) =? 0) eqn:E.
    - apply Z.eqb_eq in E. split; [ intros _; exact E | reflexivity ].
    - apply Z.eqb_neq in E. split; [ intros H | intros H; contradiction ].
      destruct (reset _ _) in H. discriminate H. }
  rewrite (update_running_calls ticks f now Hi Hp), physics_calls.
  generalize (timeStepOf ticks f now) as ts. intros ts.
  repeat split; tick_cases f; cbn; intros; try reflexivity;
    try discriminate; try congruence.
Qed.

Lemma boundary_mode_selects_kernel_witness :
  m_init (base (sampleFluids false true (OtherBoundary 7))) = true /\
  m_pause (base (sampleFluids false true (OtherBoundary 7))) = false /\
  (runsKernel KERNEL_UPDATE_POS_CYCLIC
     (snd (update ns_per_ms (sampleFluids false true (OtherBoundary 7))
             16000000)) = true
   <-> m_boundary (base (sampleFluids false true (OtherBoundary 7)))
       = CyclicWall).
Proof.
  split; [ reflexivity | ]. split; [ reflexivity | ].
  apply (boundary_mode_selects_kernel ns_per_ms
           (sampleFluids false true (OtherBoundary 7)) 16000000);
    reflexivity.
Defined.

(** ** C10: the effect radius *)

Lemma size_mul_small a b :
  0 <= a -> 0 <= b -> a * b < 2 ^ 64 -> size_mul a b = a * b.
Proof.
  intros Ha Hb Hab. unfold size_mul, wrap_size_t, size_t_mod.
  apply Z.mod_small. split; [ apply Z.mul_nonneg_nonneg | ]; assumption.
Qed.

Lemma int_cast_small q : 0 <= q < 2 ^ 31 -> int_cast q = q.
Proof.
  intros Hq. unfold int_cast. rewrite Z.mod_small by lia.
  destruct (q <? 2 ^ 31) eqn:E; [ reflexivity | ].
  apply Z.ltb_ge in E. lia.
Qed.

Lemma no_program_built_by_update ticks f now prog file opts :
  ~ In (CreateProgram prog file opts) (snd (update ticks f now)).
Proof.
  destruct (m_init (base f)) eqn:Hi;
    [ | unfold update; rewrite Hi; intros [] ].
  destruct (m_pause (base f)) eqn:Hp.
  - rewrite (update_paused_calls ticks f now Hi Hp). cbn. intros H.
    repeat (destruct H as [H | H]; [ discriminate H | ]). contradiction.
  - rewrite (update_running_calls ticks f now Hi Hp), physics_calls.
    generalize (timeStepOf ticks f now) as ts. intros ts.
    tick_cases f; cbn; intros H;
      repeat (destruct H as [H | H]; [ discriminate H | ]); contradiction.
Qed.

Lemma no_program_built_by_reset f now prog file opts :
  ~ In (CreateProgram prog file opts) (snd (reset f now)).
Proof.
  unfold reset. destruct (m_init (base f)); cbn; intros H;
    repeat (destruct H as [H | H]; [ discriminate H | ]); contradiction.
Qed.

(** C10 as stated fails, for every box size and grid resolution it is stated
    for.  A box of size 46341 cut once: the square, 2147488281, is the
    quotient and does not fit an [int]; the constant is negative.  A box of
    size 2^32 - 1 with a grid resolution of 2^32 + 1: the box size is the
    smaller one, the square of the grid resolution wraps to 2^33 + 1, and
    the constant is not 0. *)
Lemma effect_radius_squared_wraps :
  (46341 * 46341 / (1 * 1) = 2147488281 /\
   effectRadiusSquared (boxFluids 46341 1) = Some (-2147479015)) /\
  (m_boxSize (base (boxFluids (2 ^ 32 - 1) (2 ^ 32 + 1)))
     < m_gridRes (base (boxFluids (2 ^ 32 - 1) (2 ^ 32 + 1))) /\
   size_mul (2 ^ 32 + 1) (2 ^ 32 + 1) = 2 ^ 33 + 1 /\
   effectRadiusSquared (boxFluids (2 ^ 32 - 1) (2 ^ 32 + 1))
     = Some 2147483646).
Proof. repeat split. Qed.

(** C10, as the code has it: with a box size and a grid resolution below
    2^32 (their squares do not wrap) and a grid resolution that is not 0,
    the radius squared handed to the program is the quotient [q] of box
    size squared by grid resolution squared rounded toward zero, as long as
    [q] is below 2^31, the range of an [int]; it is the first build option.
    A quotient from 2^31 up to 2^32 comes out as [q - 2^32].  When the box
    size is less than the grid resolution the constant is 0.  Neither
    [update] nor [reset] builds the program again: the constant stays for
    the run. *)
Theorem effect_radius_squared_is_truncated_quotient f :
  0 <= m_boxSize (base f) < 2 ^ 32 ->
  0 < m_gridRes (base f) < 2 ^ 32 ->
  let b2 := m_boxSize (base f) * m_boxSize (base f) in
  let g2 := m_gridRes (base f) * m_gridRes (base f) in
  (b2 / g2 < 2 ^ 31 ->
   effectRadiusSquared f = Some (b2 / g2) /\
   b2 / g2 * g2 <= b2 < (b2 / g2 + 1) * g2 /\
   exists opts,
     option_map snd (createProgram f) =
       Some [ CreateProgram PROGRAM_FLUIDS "fluids.cl"
                (DefInt "EFFECT_RADIUS_SQUARED" (b2 / g2) :: opts) ]) /\
  (2 ^ 31 <= b2 / g2 < 2 ^ 32 ->
   effectRadiusSquared f = Some (b2 / g2 - 2 ^ 32)) /\
  (m_boxSize (base f) < m_gridRes (base f) ->
   effectRadiusSquared f = Some 0) /\
  (forall ticks now prog file opts,
      ~ In (CreateProgram prog file opts) (snd (update ticks f now)) /\
      ~ In (CreateProgram prog file opts) (snd (reset f now))).
Proof.
  intros Hb Hg b2 g2.
  assert (Hb2 : 0 <= b2 < 2 ^ 64) by (subst b2; nia).
  assert (Hg2 : 0 < g2 < 2 ^ 64) by (subst g2; nia).
  assert (Hq : 0 <= b2 / g2) by (apply Z.div_pos; lia).
  assert (Hc : effectRadiusSquared f = Some (int_cast (b2 / g2))).
  { unfold effectRadiusSquared, size_div.
    rewrite !size_mul_small by (subst b2 g2; lia).
    fold b2 g2. destruct (g2 =? 0) eqn:E; [ apply Z.eqb_eq in E; lia | ].
    reflexivity. }
  assert (He : b2 / g2 < 2 ^ 31 -> effectRadiusSquared f = Some (b2 / g2)).
  { intros Hlt. rewrite Hc, int_cast_small by lia. reflexivity. }
  split.
  - intros Hlt. split; [ exact (He Hlt) | ]. split.
    + pose proof (Z.mul_div_le b2 g2 ltac:(lia)).
      pose proof (Z.mul_succ_div_gt b2 g2 ltac:(lia)). lia.
    + unfold createProgram. rewrite (He Hlt). eexists. reflexivity.
  - split; [ | split ].
    + intros Hbig. rewrite Hc. unfold int_cast.
      rewrite Z.mod_small by lia.
      destruct (b2 / g2 <? 2 ^ 31) eqn:E;
        [ apply Z.ltb_lt in E; lia | reflexivity ].
    + intros Hlt.
      assert (Hz : b2 / g2 = 0) by (apply Z.div_small; subst b2 g2; nia).
      rewrite He by lia. now rewrite Hz.
    + intros ticks now prog file opts. split.
      * apply no_program_built_by_update.
      * apply no_program_built_by_reset.
Qed.

Lemma effect_radius_squared_is_truncated_quotient_witness :
  0 <= m_boxSize (base (sampleFluids false true BouncingWall)) < 2 ^ 32 /\
  0 < m_gridRes (base (sampleFluids false true BouncingWall)) < 2 ^ 32 /\
  m_boxSize (base (sampleFluids false true BouncingWall))
    < m_gridRes (base (sampleFluids false true BouncingWall)) /\
  effectRadiusSquared (sampleFluids false true BouncingWall) = Some 0 /\
  (0 <= m_boxSize (base (boxFluids 40 16)) < 2 ^ 32 /\
   0 < m_gridRes (base (boxFluids 40 16)) < 2 ^ 32 /\
   40 * 40 / (16 * 16) < 2 ^ 31 /\
   effectRadiusSquared (boxFluids 40 16) = Some 6) /\
  (2 ^ 31 <= 65535 * 65535 / (1 * 1) < 2 ^ 32 /\
   effectRadiusSquared (boxFluids 65535 1) = Some (-131071)).
Proof.
  split; [ cbn; lia | ]. split; [ cbn; lia | ]. split; [ cbn; lia | ].
  split.
  { apply (effect_radius_squared_is_truncated_quotient
             (sampleFluids false true BouncingWall)); cbn; lia. }
  split.
  { split; [ cbn; lia | ]. split; [ cbn; lia | ].
    split; [ reflexivity | ].
    apply (proj1 (effect_radius_squared_is_truncated_quotient
                    (boxFluids 40 16) ltac:(cbn; lia) ltac:(cbn; lia))).
    reflexivity. }
  split; [ split; [ discriminate | reflexivity ] | ].
  apply (proj1 (proj2 (effect_radius_squared_is_truncated_quotient
                         (boxFluids 65535 1)
                         ltac:(cbn; lia) ltac:(cbn; lia)))).
  split; [ discriminate | reflexivity ].
Defined.

(** A box larger than the grid resolution: 40 by 40 over 16 by 16 is 6. *)
Example effect_radius_squared_40_16 :
  effectRadiusSquared
    (mkFluids (mkModel true false 0 BouncingWall dim3D (F32.of_Z 1)
                 40 16 4096 8 4 1 2 3)
       (F32.lit 16 10) (F32.lit 145 100) (F32.lit 16 10)
       true true true true 1000 8 40) = Some 6.
Proof. reflexivity. Qed.

(** ** C6: sorting positions and velocities together *)





Lemma insertKey_sorted k i l :
  Sorted (fun a b => fst a <= fst b) l ->
  Sorted (fun a b => fst a <= fst b) (insertKey k i l).
Proof.
  induction l as [| [k' i'] l IH]; cbn; intros Hs.
  - repeat constructor.
  - destruct (k <=? k') eqn:E.
    + apply Z.leb_le in E. constructor; [ exact Hs | constructor; exact E ].
    + apply Z.leb_gt in E. inversion Hs as [| ? ? Hs' Hhd]; subst.
      constructor; [ apply IH, Hs' | ].
      destruct l as [| [k'' i''] l]; cbn.
      * constructor; cbn; lia.
      * destruct (k <=? k''); constructor; cbn; [ lia | ].
        inversion Hhd; subst; assumption.
Qed.

(** The keys come out in ascending order. *)
Lemma sortKeys_sorted l : Sorted (fun a b => fst a <= fst b) (sortKeys l).
Proof.
  induction l as [| [k i] l IH]; cbn; [ constructor | ].
  apply insertKey_sorted, IH.
Qed.




(** The sort at work: keys [7; 3; 7] bring the second item to the front and
    keep the two items of key 7 in their order. *)
Example sortPerm_stable : sortPerm [7; 3; 7] = [1%nat; 0%nat; 2%nat].
Proof. reflexivity. Qed.

(** ** C4: capping the cell ranges *)

(** C4 as stated fails: the flag is set and the tick is paused; the adjust
    kernel does not run. *)
Lemma paused_tick_skips_adjust :
  m_init (base (sampleFluids true true BouncingWall)) = true /\
  m_simplifiedMode (sampleFluids true true BouncingWall) = true /\
  runsKernel KERNEL_ADJUST_END_CELL
    (snd (update ns_per_ms (sampleFluids true true BouncingWall) 16000000))
    = false.
Proof. repeat split; reflexivity. Qed.

Lemma length_mapi_from {A} (g : nat -> A -> A) l i n :
  List.length (mapi_from i n g l) = List.length l.
Proof.
  revert i. induction l as [| a l IH]; intros i; cbn; [ reflexivity | ].
  now rewrite IH.
Qed.

Lemma nth_mapi_from {A} (g : nat -> A -> A) d l i n c :
  (c < List.length l)%nat -> (i + c < n)%nat ->
  nth c (mapi_from i n g l) d = g (i + c)%nat (nth c l d).
Proof.
  revert i c. induction l as [| a l IH]; intros i c Hc Hn;
    [ cbn in Hc; lia | ].
  destruct c as [| c]; cbn [nth mapi_from].
  - rewrite Nat.add_0_r in *.
    destruct (Nat.ltb_spec i n); [ reflexivity | lia ].
  - cbn [List.length] in Hc. rewrite IH by lia. f_equal. lia.
Qed.

Lemma capRange_bound prog se :
  snd (capRange prog se) - fst (capRange prog se) <= NUM_MAX_PARTS_IN_CELL prog.
Proof.
  unfold capRange.
  destruct (NUM_MAX_PARTS_IN_CELL prog <? snd se - fst se) eqn:E; cbn.
  - lia.
  - apply Z.ltb_ge in E. exact E.
Qed.

(** A cell that holds too many particles keeps its start and loses the
    end of its range; a cell within the cap keeps its range. *)
Lemma capRange_truncates prog se :
  fst (capRange prog se) = fst se /\
  (snd se - fst se <= NUM_MAX_PARTS_IN_CELL prog -> capRange prog se = se) /\
  (NUM_MAX_PARTS_IN_CELL prog < snd se - fst se ->
   snd (capRange prog se) = fst se + NUM_MAX_PARTS_IN_CELL prog).
Proof.
  unfold capRange.
  destruct (NUM_MAX_PARTS_IN_CELL prog <? snd se - fst se) eqn:E; cbn.
  - apply Z.ltb_lt in E.
    repeat split; intros; try reflexivity; exfalso; lia.
  - apply Z.ltb_ge in E.
    repeat split; intros; try reflexivity; exfalso; lia.
Qed.

Lemma adjustEndCell_caps prog n s c :
  (c < Z.to_nat n)%nat -> (c < List.length (c_startEndPartID s))%nat ->
  rangeLength (c_startEndPartID (adjustEndCell prog n s)) c
    <= NUM_MAX_PARTS_IN_CELL prog.
Proof.
  intros Hn Hc. unfold rangeLength, adjustEndCell, workItems.
  cbn [c_startEndPartID set_c_startEndPartID].
  rewrite (nth_mapi_from _ (0, 0) _ 0 _ c Hc) by exact Hn.
  apply capRange_bound.
Qed.

Lemma permuteBuffers_keeps_range_table perm names s s' :
  permuteBuffers perm names s = Some s' ->
  c_startEndPartID s' = c_startEndPartID s.
Proof.
  revert s. induction names as [| name names IH]; intros s; cbn.
  - intros H. now injection H as <-.
  - destruct (permuteBuffer perm name s) as [s1 |] eqn:E; [ | discriminate ].
    intros H. rewrite (IH _ H). revert E. unfold permuteBuffer.
    repeat match goal with
           | |- context [String.eqb name ?b] => destruct (String.eqb name b)
           end;
      intros E; try discriminate E; now injection E as <-.
Qed.

Lemma exec_keeps_range_table prog num c s s' :
  writesRangeTable c = false -> exec prog num c s = Some s' ->
  c_startEndPartID s' = c_startEndPartID s.
Proof.
  destruct c as [| | | | k slot v | k n | | | key payload];
    cbn [writesRangeTable exec]; intros Hw H;
    try (now injection H as <-).
  - revert Hw H. unfold runKernel, withArg.
    repeat match goal with
           | |- context [String.eqb k ?b] => destruct (String.eqb k b)
           end;
      cbn; intros Hw H; try discriminate;
      repeat match type of H with
             | context [lookup_arg ?a ?b ?c] => destruct (lookup_arg a b c)
             end;
      try discriminate; now injection H as <-.
  - unfold radixSort in H. destruct (keyBuffer key s); [ | discriminate ].
    destruct (permuteBuffers _ payload s) as [s1 |] eqn:E; [ | discriminate ].
    injection H as <-. apply permuteBuffers_keeps_range_table in E.
    rewrite <- E. unfold set_keyBuffer.
    repeat match goal with
           | |- context [String.eqb key ?b] => destruct (String.eqb key b)
           end; reflexivity.
Qed.

Lemma execAll_keeps_range_table prog num l s s' :
  forallb (fun c => negb (writesRangeTable c)) l = true ->
  execAll prog num l s = Some s' ->
  c_startEndPartID s' = c_startEndPartID s.
Proof.
  revert s. induction l as [| c l IH]; intros s; cbn.
  - intros _ H. now injection H as <-.
  - intros Hw H. apply andb_prop in Hw. destruct Hw as [Hc Hl].
    destruct (exec prog num c s) as [s1 |] eqn:E; [ | discriminate ].
    rewrite (IH _ Hl H).
    apply (exec_keeps_range_table prog num c); [ | exact E ].
    now apply negb_true_iff.
Qed.

Lemma programOf_cap f prog :
  programOf f = Some prog -> NUM_MAX_PARTS_IN_CELL prog = m_maxNbPartsInCell f.
Proof.
  unfold programOf. destruct (effectRadiusSquared f); [ | discriminate ].
  intros H. now injection H as <-.
Qed.

Lemma nth_mapi_from_beyond {A} (g : nat -> A -> A) d l i n c :
  (n <= i + c)%nat -> nth c (mapi_from i n g l) d = nth c l d.
Proof.
  revert i c. induction l as [| a l IH]; intros i c Hn; [ reflexivity | ].
  destruct c as [| c]; cbn [nth mapi_from].
  - destruct (Nat.ltb_spec i n); [ lia | reflexivity ].
  - apply IH. lia.
Qed.

Lemma capRange_min prog se :
  capRange prog se
    = (fst se, Z.min (snd se) (fst se + NUM_MAX_PARTS_IN_CELL prog)).
Proof.
  unfold capRange. destruct se as [st en]. cbn [fst snd].
  destruct (NUM_MAX_PARTS_IN_CELL prog <? en - st) eqn:E.
  - apply Z.ltb_lt in E. rewrite Z.min_r by lia. reflexivity.
  - apply Z.ltb_ge in E. rewrite Z.min_l by lia. reflexivity.
Qed.

(** C4, as the code has it: a tick runs the adjust kernel exactly when the
    object is initialised, not paused and in simplified mode.  When it
    runs, the tick goes through on the device without failing.  Of the
    range table as the end-of-range fill left it, the table at the end of
    the tick keeps the start of every cell the kernel went over and cuts
    the end down to the start plus [m_maxNbPartsInCell] where it was beyond
    that, so that no such cell has a longer range; the cells the kernel did
    not go over keep their entries. *)
Theorem adjust_runs_unpaused_and_caps_ranges ticks f now :
  runsKernel KERNEL_ADJUST_END_CELL (snd (update ticks f now))
    = m_init (base f) && negb (m_pause (base f)) && m_simplifiedMode f /\
  forall prog num s,
    programOf f = Some prog ->
    runsKernel KERNEL_ADJUST_END_CELL (snd (update ticks f now)) = true ->
    exists s0 s',
      execAll prog num
        (throughFirst (isRunOf KERNEL_FILL_END_CELL) (snd (update ticks f now)))
        s = Some s0 /\
      execAll prog num (snd (update ticks f now)) s = Some s' /\
      List.length (c_startEndPartID s') = List.length (c_startEndPartID s0) /\
      (forall c,
          (c < Z.to_nat (m_nbCells (base f)))%nat ->
          (c < List.length (c_startEndPartID s0))%nat ->
          nth c (c_startEndPartID s') (0, 0)
            = (fst (nth c (c_startEndPartID s0) (0, 0)),
               Z.min (snd (nth c (c_startEndPartID s0) (0, 0)))
                     (fst (nth c (c_startEndPartID s0) (0, 0))
                      + m_maxNbPartsInCell f)) /\
          rangeLength (c_startEndPartID s') c <= m_maxNbPartsInCell f) /\
      (forall c,
          (Z.to_nat (m_nbCells (base f)) <= c)%nat ->
          nth c (c_startEndPartID s') (0, 0)
            = nth c (c_startEndPartID s0) (0, 0)).
Proof.
  assert (Hruns : runsKernel KERNEL_ADJUST_END_CELL (snd (update ticks f now))
                  = m_init (base f) && negb (m_pause (base f))
                    && m_simplifiedMode f).
  { destruct (m_init (base f)) eqn:Hi;
      [ | unfold update; rewrite Hi; reflexivity ].
    destruct (m_pause (base f)) eqn:Hp.
    - rewrite (update_paused_calls ticks f now Hi Hp). reflexivity.
    - rewrite (update_running_calls ticks f now Hi Hp), physics_calls.
      tick_cases f; reflexivity. }
  split; [ exact Hruns | ].
  intros prog num s Hprog Hrun. rewrite Hruns in Hrun.
  apply andb_prop in Hrun. destruct Hrun as [Hrun Hs].
  apply andb_prop in Hrun. destruct Hrun as [Hi Hp].
  apply negb_true_iff in Hp.
  destruct (tick_executes prog num ticks f now s) as [s' Hs'].
  revert Hs'.
  rewrite (update_running_calls ticks f now Hi Hp), physics_calls, Hs.
  generalize (timeStepOf ticks f now) as ts. intros ts.
  match goal with
  | |- context [throughFirst ?p (?a :: (?l7 ++ ?adj ++ ?rest) ++ ?t)] =>
      change (throughFirst p (a :: (l7 ++ adj ++ rest) ++ t)) with (a :: l7);
      change (a :: (l7 ++ adj ++ rest) ++ t)
        with (((a :: l7) ++ adj) ++ (rest ++ t))
  end.
  rewrite !execAll_app.
  destruct (execAll prog num (_ :: _) s) as [s0 |] eqn:E0; [ | discriminate ].
  cbn [execAll].
  change (exec prog num
            (RunKernel KERNEL_ADJUST_END_CELL (m_nbCells (base f))) s0)
    with (Some (adjustEndCell prog (m_nbCells (base f)) s0)).
  intros Hpost. exists s0, s'.
  split; [ reflexivity | ]. split; [ exact Hpost | ].
  apply execAll_keeps_range_table in Hpost;
    [ | destruct (m_boundary (base f)); reflexivity ].
  rewrite Hpost, <- (programOf_cap f prog Hprog).
  unfold rangeLength, adjustEndCell, workItems.
  cbn [c_startEndPartID set_c_startEndPartID].
  split; [ apply length_mapi_from | ]. split.
  - intros c Hn Hc.
    rewrite (nth_mapi_from _ (0, 0) _ 0 _ c Hc) by exact Hn.
    split; [ apply capRange_min | apply capRange_bound ].
  - intros c Hn. apply nth_mapi_from_beyond. exact Hn.
Qed.

Lemma adjust_runs_unpaused_and_caps_ranges_witness :
  programOf crowdedFluids = Some twoProgram /\
  runsKernel KERNEL_ADJUST_END_CELL
    (snd (update ns_per_ms crowdedFluids 16000000)) = true /\
  exists s0 s',
    execAll twoProgram (refNumerics 4)
      (throughFirst (isRunOf KERNEL_FILL_END_CELL)
         (snd (update ns_per_ms crowdedFluids 16000000))) crowdedStore
      = Some s0 /\
    execAll twoProgram (refNumerics 4)
      (snd (update ns_per_ms crowdedFluids 16000000)) crowdedStore
      = Some s' /\
    nth 7 (c_startEndPartID s0) (0, 0) = (0, 1001) /\
    nth 7 (c_startEndPartID s') (0, 0) = (0, 1000).
Proof.
  split; [ reflexivity | ]. split; [ reflexivity | ].
  destruct (proj2 (adjust_runs_unpaused_and_caps_ranges ns_per_ms
                     crowdedFluids 16000000)
              twoProgram (refNumerics 4) crowdedStore eq_refl eq_refl)
    as (s0 & s' & H0 & H1 & _ & Hcap & _).
  exists s0, s'. split; [ exact H0 | ]. split; [ exact H1 | ].
  assert (Hn : (7 < Z.to_nat (m_nbCells (base crowdedFluids)))%nat)
    by (cbn; lia).
  assert (E : option_map
                (fun s => (nth 7 (c_startEndPartID s) (0, 0),
                           (7 <? List.length (c_startEndPartID s))%nat))
                (execAll twoProgram (refNumerics 4)
                   (throughFirst (isRunOf KERNEL_FILL_END_CELL)
                      (snd (update ns_per_ms crowdedFluids 16000000)))
                   crowdedStore)
              = Some ((0, 1001), true)) by (vm_compute; reflexivity).
  rewrite H0 in E. cbn [option_map] in E. injection E as E7 El.
  apply Nat.ltb_lt in El.
  destruct (Hcap 7%nat Hn El) as [H7 _].
  split; [ exact E7 | rewrite H7, E7; reflexivity ].
Defined.

(** A cap of 2 at work on a table of three cells. *)
Example adjustEndCell_cap_2 :
  c_startEndPartID
    (adjustEndCell (mkProgram 4 (F32.of_Z 2) 2 8 2) 3
       (set_c_startEndPartID [ (0, 5); (5, 6); (6, 6) ] twoStore))
    = [ (0, 2); (5, 6); (6, 6) ].
Proof. reflexivity. Qed.

(** * Further properties of the member functions *)

Ltac in_cases H :=
  repeat (destruct H as [H | H]; [ try discriminate H | ]);
  try contradiction.

Ltac find_in :=
  cbn; repeat first [ left; reflexivity | right ].

Lemma reset_calls f now :
  m_init (base f) = true ->
  reset f now =
    (set_time now f,
     [ SetKernelArg KERNEL_RANDOM_POS 2
         (match m_dimension (base f) with
          | dim2D => F32.of_Z 2
          | dim3D => F32.of_Z 3
          end);
       SetKernelArg KERNEL_UPDATE_VEL 2 (m_velocity (base f));
       AcquireGLBuffers [ "p_pos"; "c_partDetector" ];
       RunKernel KERNEL_INFINITE_POS (m_maxNbParticles (base f));
       RunKernel KERNEL_RANDOM_POS (m_currNbParticles (base f));
       RunKernel KERNEL_FLUSH_GRID_DETECTOR (m_nbCells (base f));
       RunKernel KERNEL_FILL_GRID_DETECTOR (m_currNbParticles (base f));
       RunKernel KERNEL_RESET_CELL_ID (m_maxNbParticles (base f));
       RunKernel KERNEL_RESET_CAMERA_DIST (m_maxNbParticles (base f));
       ReleaseGLBuffers [ "p_pos"; "c_partDetector" ] ]).
Proof. intros Hi. unfold reset. rewrite Hi. reflexivity. Qed.

(** ** X1: the shared buffers are held around the dispatches *)

(** X1: on an initialised object, [update] acquires p_pos, c_partDetector
    and u_cameraPos as its first call and releases the same three as its
    last; [reset] binds its two scalars, then acquires p_pos and
    c_partDetector and releases them as its last call.  Every kernel run
    and every sort lies between the two, and nothing is acquired or
    released in between. *)
Theorem dispatches_hold_the_shared_buffers ticks f now :
  m_init (base f) = true ->
  bracketed [ "p_pos"; "c_partDetector"; "u_cameraPos" ]
    (snd (update ticks f now)) /\
  (exists rest, snd (update ticks f now) =
      AcquireGLBuffers [ "p_pos"; "c_partDetector"; "u_cameraPos" ] :: rest) /\
  bracketed [ "p_pos"; "c_partDetector" ] (snd (reset f now)).
Proof.
  intros Hi. split; [ | split ].
  - destruct (m_pause (base f)) eqn:Hp.
    + rewrite (update_paused_calls ticks f now Hi Hp).
      exists [], [ RunKernel KERNEL_FILL_CAMERA_DIST (m_currNbParticles (base f));
                   Sort "p_cameraDist" [ "p_pos"; "p_vel" ] ].
      repeat split.
    + rewrite (update_running_calls ticks f now Hi Hp).
      exists [], (snd (physics f (timeStepOf ticks f now))
                  ++ [ RunKernel KERNEL_FILL_CAMERA_DIST
                         (m_currNbParticles (base f));
                       Sort "p_cameraDist" [ "p_pos"; "p_vel" ] ]).
      split; [ cbn [app]; now rewrite <- app_assoc | ].
      split; [ reflexivity | ].
      cbn [app]. rewrite existsb_app, physics_calls.
      generalize (timeStepOf ticks f now) as ts. intros ts.
      tick_cases f; reflexivity.
  - destruct (m_pause (base f)) eqn:Hp.
    + rewrite (update_paused_calls ticks f now Hi Hp). eexists. reflexivity.
    + rewrite (update_running_calls ticks f now Hi Hp). eexists. reflexivity.
  - rewrite (reset_calls f now Hi). cbn [snd].
    eexists [ _; _ ], [ _; _; _; _; _; _ ]. repeat split.
Qed.

Lemma dispatches_hold_the_shared_buffers_witness :
  m_init (base (sampleFluids false true CyclicWall)) = true /\
  bracketed [ "p_pos"; "c_partDetector"; "u_cameraPos" ]
    (snd (update ns_per_ms (sampleFluids false true CyclicWall) 16000000)).
Proof.
  split; [ reflexivity | ].
  apply (dispatches_hold_the_shared_buffers ns_per_ms
           (sampleFluids false true CyclicWall) 16000000).
  reflexivity.
Defined.

Lemma update_calls_cases ticks f now (P : list Cmd -> Prop) :
  P [] ->
  P (pausedCalls (m_currNbParticles (base f))) ->
  (forall ts,
      P (AcquireGLBuffers [ "p_pos"; "c_partDetector"; "u_cameraPos" ]
         :: snd (physics f ts)
         ++ [ RunKernel KERNEL_FILL_CAMERA_DIST (m_currNbParticles (base f));
              Sort "p_cameraDist" [ "p_pos"; "p_vel" ];
              ReleaseGLBuffers [ "p_pos"; "c_partDetector"; "u_cameraPos" ] ])) ->
  P (snd (update ticks f now)).
Proof.
  intros H0 Hp Hr. destruct (m_init (base f)) eqn:Hi;
    [ | unfold update; rewrite Hi; exact H0 ].
  destruct (m_pause (base f)) eqn:Hpause.
  - rewrite (update_paused_calls ticks f now Hi Hpause). exact Hp.
  - rewrite (update_running_calls ticks f now Hi Hpause). apply Hr.
Qed.

Lemma reset_calls_cases f now (P : list Cmd -> Prop) :
  P [] ->
  (m_init (base f) = true -> P (snd (reset f now))) ->
  P (snd (reset f now)).
Proof.
  intros H0 H1. destruct (m_init (base f)) eqn:Hi; [ now apply H1 | ].
  unfold reset. rewrite Hi. exact H0.
Qed.

(** ** X2: what is acquired *)

(** X2: the buffers [update] acquires are exactly the three that
    [createBuffers] creates from OpenGL objects; [reset] acquires two of
    them and leaves out the camera position. *)
Theorem acquired_buffers_are_the_gl_buffers ticks f now names :
  (In (AcquireGLBuffers names) (snd (update ticks f now)) ->
   forall name,
     In name names <-> In name (glBuffersCreated (snd (createBuffers f)))) /\
  (In (AcquireGLBuffers names) (snd (reset f now)) ->
   (forall name,
       In name names -> In name (glBuffersCreated (snd (createBuffers f)))) /\
   ~ In "u_cameraPos" names).
Proof.
  split.
  - pattern (snd (update ticks f now)); apply update_calls_cases.
    + intros [].
    + cbn. intros H. in_cases H. injection H as <-. cbn. intros name. tauto.
    + intros ts. rewrite physics_calls.
      tick_cases f; cbn; intros H; in_cases H; injection H as <-; cbn;
        intros name; tauto.
  - pattern (snd (reset f now)); apply reset_calls_cases.
    + intros [].
    + intros Hi. rewrite (reset_calls f now Hi). cbn. intros H. in_cases H.
      injection H as <-. split.
      * cbn. intros name. tauto.
      * cbn. intros H. in_cases H.
Qed.

Lemma acquired_buffers_are_the_gl_buffers_witness :
  In (AcquireGLBuffers [ "p_pos"; "c_partDetector"; "u_cameraPos" ])
     (snd (update ns_per_ms (sampleFluids true true CyclicWall) 5)) /\
  (In "u_cameraPos" [ "p_pos"; "c_partDetector"; "u_cameraPos" ] <->
   In "u_cameraPos"
      (glBuffersCreated
         (snd (createBuffers (sampleFluids true true CyclicWall))))).
Proof.
  assert (H : In (AcquireGLBuffers [ "p_pos"; "c_partDetector"; "u_cameraPos" ])
                 (snd (update ns_per_ms (sampleFluids true true CyclicWall) 5)))
    by (left; reflexivity).
  split; [ exact H | ].
  exact (proj1 (acquired_buffers_are_the_gl_buffers ns_per_ms
                  (sampleFluids true true CyclicWall) 5
                  [ "p_pos"; "c_partDetector"; "u_cameraPos" ]) H
               "u_cameraPos").
Defined.

(** ** X3: what is run has been created *)

(** X3: every kernel that [update] or [reset] runs, or binds a scalar of,
    is one of the kernels [createKernels] creates, and [createKernels]
    creates no kernel twice. *)
Theorem dispatched_kernels_are_created ticks f now k :
  ((exists n, In (RunKernel k n) (snd (update ticks f now))) \/
   (exists n, In (RunKernel k n) (snd (reset f now))) \/
   (exists slot v, In (SetKernelArg k slot v) (snd (update ticks f now))) \/
   (exists slot v, In (SetKernelArg k slot v) (snd (reset f now))) ->
   In k (kernelsCreated (snd (createKernels f)))) /\
  NoDup (kernelsCreated (snd (createKernels f))).
Proof.
  split.
  - intros [[n H] | [[n H] | [[slot [v H]] | [slot [v H]]]]]; revert H.
    + pattern (snd (update ticks f now)); apply update_calls_cases.
      * intros [].
      * cbn. intros H. in_cases H. injection H as <- _. find_in.
      * intros ts. rewrite physics_calls.
        tick_cases f; cbn; intros H; in_cases H; injection H as <- _;
          find_in.
    + pattern (snd (reset f now)); apply reset_calls_cases.
      * intros [].
      * intros Hi. rewrite (reset_calls f now Hi). cbn. intros H.
        in_cases H; injection H as <- _; find_in.
    + pattern (snd (update ticks f now)); apply update_calls_cases.
      * intros [].
      * cbn. intros H. in_cases H.
      * intros ts. rewrite physics_calls.
        tick_cases f; cbn; intros H; in_cases H; injection H as <- _ _;
          find_in.
    + pattern (snd (reset f now)); apply reset_calls_cases.
      * intros [].
      * intros Hi. rewrite (reset_calls f now Hi). cbn. intros H.
        in_cases H; injection H as <- _ _; find_in.
  - cbn. repeat (constructor; [ cbn; intros H; in_cases H | ]). constructor.
Qed.

Lemma dispatched_kernels_are_created_witness :
  (exists n,
      In (RunKernel KERNEL_FILL_CAMERA_DIST n)
         (snd (update ns_per_ms (sampleFluids true true CyclicWall) 5))) /\
  In KERNEL_FILL_CAMERA_DIST
     (kernelsCreated (snd (createKernels (sampleFluids true true CyclicWall)))).
Proof.
  assert (H : exists n,
             In (RunKernel KERNEL_FILL_CAMERA_DIST n)
                (snd (update ns_per_ms (sampleFluids true true CyclicWall) 5)))
    by (exists 4; right; left; reflexivity).
  split; [ exact H | ].
  exact (proj1 (dispatched_kernels_are_created ns_per_ms
                  (sampleFluids true true CyclicWall) 5
                  KERNEL_FILL_CAMERA_DIST) (or_introl H)).
Defined.

(** ** X4: a buffer that is bound and never created *)

(** X4: every buffer name [createKernels] gives a kernel is the empty
    placeholder, p_density, or a buffer [createBuffers] creates;
    p_density, which the density, constraint factor and constraint
    correction kernels are given, is created nowhere. *)
Theorem kernel_buffers_are_created_but_density f :
  (forall name,
      In name (namesBound (snd (createKernels f))) ->
      name = EmptyString \/ name = "p_density" \/
      In name (buffersCreated (snd (createBuffers f)))) /\
  ~ In "p_density" (buffersCreated (snd (createBuffers f))) /\
  (forall k,
      In k [ KERNEL_DENSITY; KERNEL_CONSTRAINT_FACTOR;
             KERNEL_CONSTRAINT_CORRECTION ] ->
      exists args,
        argsOfKernel k (snd (createKernels f)) = Some args /\
        In "p_density" args).
Proof.
  split; [ | split ].
  - cbn. intros name H.
    repeat (destruct H as [H | H];
            [ subst name;
              first [ left; reflexivity
                    | right; left; reflexivity
                    | right; right; find_in ] | ]).
    contradiction.
  - cbn. intros H. in_cases H.
  - intros k H. cbn in H.
    repeat (destruct H as [H | H];
            [ subst k; eexists; split; [ reflexivity | find_in ] | ]).
    contradiction.
Qed.

Lemma kernel_buffers_are_created_but_density_witness :
  In "p_corrPos"
     (namesBound (snd (createKernels (sampleFluids true true CyclicWall)))) /\
  In "p_corrPos"
     (buffersCreated (snd (createBuffers (sampleFluids true true CyclicWall)))).
Proof.
  assert (H : In "p_corrPos"
                 (namesBound
                    (snd (createKernels (sampleFluids true true CyclicWall)))))
    by find_in.
  split; [ exact H | ].
  destruct (proj1 (kernel_buffers_are_created_but_density
                     (sampleFluids true true CyclicWall)) "p_corrPos" H)
    as [E | [E | E]];
    [ discriminate E | discriminate E | exact E ].
Defined.

(** ** X5: where the time step is bound *)

(** X5: every scalar [update] binds is the time step of the tick.  For the
    predict kernel it goes to slot 2, the slot [createKernels] left empty
    for a scalar.  For the velocity kernel and the two position kernels it
    goes to slot 1, which [createKernels] gave a buffer (p_pos for the
    velocity kernel, p_predPos for the position kernels), while the slot
    left empty for them is slot 2. *)
Theorem time_step_slots ticks f now k slot v :
  In (SetKernelArg k slot v) (snd (update ticks f now)) ->
  v = timeStepOf ticks f now /\
  ((k = KERNEL_PREDICT_POS /\ slot = 2 /\
    slotName f k 2 = Some EmptyString) \/
   (k = KERNEL_UPDATE_VEL /\ slot = 1 /\
    slotName f k 1 = Some "p_pos" /\ slotName f k 2 = Some EmptyString) \/
   ((k = KERNEL_UPDATE_POS_CYCLIC \/ k = KERNEL_UPDATE_POS_BOUNCING) /\
    slot = 1 /\
    slotName f k 1 = Some "p_predPos" /\ slotName f k 2 = Some EmptyString)).
Proof.
  destruct (m_init (base f)) eqn:Hi;
    [ | unfold update; rewrite Hi; intros [] ].
  destruct (m_pause (base f)) eqn:Hp.
  - rewrite (update_paused_calls ticks f now Hi Hp). cbn. intros H.
    in_cases H.
  - rewrite (update_running_calls ticks f now Hi Hp), physics_calls.
    generalize (timeStepOf ticks f now) as ts. intros ts.
    tick_cases f; cbn; intros H; in_cases H; injection H as <- <- <-;
      (split; [ reflexivity | ]);
      first [ left; repeat split; reflexivity
            | right; left; repeat split; reflexivity
            | right; right; split; [ left; reflexivity | repeat split ]
            | right; right; split; [ right; reflexivity | repeat split ] ].
Qed.

Lemma time_step_slots_witness :
  In (SetKernelArg KERNEL_UPDATE_VEL 1 (F32.of_Z 1))
     (snd (update ns_per_ms (sampleFluids false true CyclicWall) 16000000)) /\
  F32.of_Z 1 = timeStepOf ns_per_ms (sampleFluids false true CyclicWall) 16000000.
Proof.
  assert (H : In (SetKernelArg KERNEL_UPDATE_VEL 1 (F32.of_Z 1))
                 (snd (update ns_per_ms (sampleFluids false true CyclicWall)
                         16000000)))
    by (vm_compute; do 21 right; left; reflexivity).
  split; [ exact H | ].
  exact (proj1 (time_step_slots ns_per_ms (sampleFluids false true CyclicWall)
                  16000000 KERNEL_UPDATE_VEL 1 (F32.of_Z 1) H)).
Defined.

(** ** X6: the scalars of reset *)

(** X6: [reset] binds two scalars before it acquires anything: slot 2 of
    the random position kernel, past the two buffers the kernel was created
    with, gets 2 for a two dimensional model and 3 otherwise; slot 2 of the
    velocity kernel, the one left empty for a scalar, gets [m_velocity].
    [update] binds neither of them, so a tick runs with the values of the
    last reset. *)
Theorem reset_binds_dimension_and_velocity ticks f now :
  m_init (base f) = true ->
  (exists rest,
      snd (reset f now) =
        SetKernelArg KERNEL_RANDOM_POS 2
          (match m_dimension (base f) with
           | dim2D => F32.of_Z 2
           | dim3D => F32.of_Z 3
           end)
        :: SetKernelArg KERNEL_UPDATE_VEL 2 (m_velocity (base f))
        :: AcquireGLBuffers [ "p_pos"; "c_partDetector" ] :: rest /\
      forall k slot v, ~ In (SetKernelArg k slot v) rest) /\
  slotName f KERNEL_RANDOM_POS 2 = None /\
  slotName f KERNEL_UPDATE_VEL 2 = Some EmptyString /\
  forall t slot v,
    In (SetKernelArg KERNEL_RANDOM_POS slot v) (snd (update ticks f t)) \/
    In (SetKernelArg KERNEL_UPDATE_VEL 2 v) (snd (update ticks f t)) -> False.
Proof.
  intros Hi. split; [ | split; [ reflexivity | split; [ reflexivity | ] ] ].
  - rewrite (reset_calls f now Hi). cbn [snd]. eexists. split.
    + reflexivity.
    + intros k slot v H. cbn in H. in_cases H.
  - intros t slot v [H | H]; revert H;
      pattern (snd (update ticks f t)); apply update_calls_cases.
    + intros [].
    + cbn. intros H. in_cases H.
    + intros ts. rewrite physics_calls.
      tick_cases f; cbn; intros H; in_cases H.
    + intros [].
    + cbn. intros H. in_cases H.
    + intros ts. rewrite physics_calls.
      tick_cases f; cbn; intros H; in_cases H.
Qed.

Lemma reset_binds_dimension_and_velocity_witness :
  m_init (base (sampleFluids false true CyclicWall)) = true /\
  slotName (sampleFluids false true CyclicWall) KERNEL_RANDOM_POS 2 = None.
Proof.
  split; [ reflexivity | ].
  apply (reset_binds_dimension_and_velocity ns_per_ms
           (sampleFluids false true CyclicWall) 0).
  reflexivity.
Defined.

(** ** X7: over how many work items a kernel runs *)

(** X7: in a tick, the three kernels that work on cells (range table
    flush, range cap, grid detector flush) run over [m_nbCells] work items
    and every other kernel over [m_currNbParticles].  In [reset], the
    kernels that clear positions, cell identifiers and camera distances run
    over [m_maxNbParticles], the grid detector flush over [m_nbCells] and
    the other two over [m_currNbParticles]. *)
Theorem kernel_work_items ticks f now k n :
  (In (RunKernel k n) (snd (update ticks f now)) ->
   n = if inNames k cellKernels then m_nbCells (base f)
       else m_currNbParticles (base f)) /\
  (In (RunKernel k n) (snd (reset f now)) ->
   n = if inNames k capacityKernels then m_maxNbParticles (base f)
       else if inNames k cellKernels then m_nbCells (base f)
       else m_currNbParticles (base f)).
Proof.
  split.
  - pattern (snd (update ticks f now)); apply update_calls_cases.
    + intros [].
    + cbn. intros H. in_cases H. now injection H as <- <-.
    + intros ts. rewrite physics_calls.
      tick_cases f; cbn; intros H; in_cases H; now injection H as <- <-.
  - pattern (snd (reset f now)); apply reset_calls_cases.
    + intros [].
    + intros Hi. rewrite (reset_calls f now Hi). cbn. intros H.
      in_cases H; now injection H as <- <-.
Qed.

Lemma kernel_work_items_witness :
  In (RunKernel KERNEL_FLUSH_START_END_CELL 4096)
     (snd (update ns_per_ms (sampleFluids false true CyclicWall) 16000000)) /\
  4096 = m_nbCells (base (sampleFluids false true CyclicWall)).
Proof.
  assert (H : In (RunKernel KERNEL_FLUSH_START_END_CELL 4096)
                 (snd (update ns_per_ms (sampleFluids false true CyclicWall)
                         16000000)))
    by (vm_compute; do 5 right; left; reflexivity).
  split; [ exact H | ].
  exact (proj1 (kernel_work_items ns_per_ms (sampleFluids false true CyclicWall)
                  16000000 KERNEL_FLUSH_START_END_CELL 4096) H).
Defined.

(** ** X8: the time step is bounded *)

(** X8: whatever the clock says, no scalar a tick binds is greater than
    30: the time step is either the elapsed milliseconds over 16, when
    that is not above 30, or zero. *)
Theorem bound_time_step_is_at_most_30 ticks f now k slot v :
  In (SetKernelArg k slot v) (snd (update ticks f now)) ->
  F32.ltb (F32.of_Z 30) v = false /\
  (v = rawTimeStep ticks f now \/ v = F32.zero).
Proof.
  assert (Hts : F32.ltb (F32.of_Z 30) (timeStepOf ticks f now) = false /\
                (timeStepOf ticks f now = rawTimeStep ticks f now \/
                 timeStepOf ticks f now = F32.zero)).
  { unfold timeStepOf.
    destruct (F32.ltb (F32.of_Z 30) (rawTimeStep ticks f now)) eqn:E.
    - split; [ reflexivity | right; reflexivity ].
    - split; [ exact E | left; reflexivity ]. }
  destruct (m_init (base f)) eqn:Hi;
    [ | unfold update; rewrite Hi; intros [] ].
  destruct (m_pause (base f)) eqn:Hp.
  - rewrite (update_paused_calls ticks f now Hi Hp). cbn. intros H.
    in_cases H.
  - rewrite (update_running_calls ticks f now Hi Hp).
    intros [H | H]; [ discriminate H | ].
    apply in_app_or in H. destruct H as [H | H].
    + apply physics_args in H. subst v. exact Hts.
    + cbn in H. in_cases H.
Qed.

Lemma bound_time_step_is_at_most_30_witness :
  In (SetKernelArg KERNEL_PREDICT_POS 2 F32.zero)
     (snd (update ns_per_ms (sampleFluids false true CyclicWall) 960000000)) /\
  F32.ltb (F32.of_Z 30) F32.zero = false.
Proof.
  assert (H : In (SetKernelArg KERNEL_PREDICT_POS 2 F32.zero)
                 (snd (update ns_per_ms (sampleFluids false true CyclicWall)
                         960000000)))
    by (vm_compute; do 3 right; left; reflexivity).
  split; [ exact H | ].
  exact (proj1 (bound_time_step_is_at_most_30 ns_per_ms
                  (sampleFluids false true CyclicWall) 960000000
                  KERNEL_PREDICT_POS 2 F32.zero H)).
Defined.

(** ** X9: from where the time is counted *)

Lemma update_object ticks f now :
  fst (update ticks f now) =
    if m_init (base f) && negb (m_pause (base f)) then set_time now f else f.
Proof.
  unfold update. destruct (m_init (base f)); [ | reflexivity ].
  destruct (m_pause (base f)); reflexivity.
Qed.

Lemma last_cons_default {A} (a d : A) l : last (a :: l) d = last l a.
Proof.
  revert a d. induction l as [| b l IH]; intros a d; [ reflexivity | ].
  change (last (a :: b :: l) d) with (last (b :: l) d).
  now rewrite (IH b d), (IH b a).
Qed.

(** X9: the clock of the object moves only in unpaused ticks.  After any
    run of ticks of an initialised, unpaused object the next time step is
    counted from the time of the last of them; on a paused object the run
    leaves the object as it was, each tick making the same four calls, and
    the next time step is still counted from the time the object held
    before the run. *)
Theorem time_is_counted_from_the_last_unpaused_tick ticks f times t :
  m_init (base f) = true ->
  rawTimeStep ticks (fst (runTicks ticks f times)) t =
    (if m_pause (base f) then rawTimeStep ticks f t
     else F32.div
            (F32.of_Z (elapsed_ms ticks t (last times (m_time (base f)))))
            (F32.of_Z 16)) /\
  (m_pause (base f) = true ->
   runTicks ticks f times =
     (f, List.concat
           (map (fun _ => pausedCalls (m_currNbParticles (base f))) times))).
Proof.
  intros Hi. split.
  - revert f Hi. induction times as [| t1 r IH]; intros f Hi.
    + cbn. destruct (m_pause (base f)); reflexivity.
    + cbn [runTicks].
      pose proof (update_object ticks f t1) as Hu.
      destruct (update ticks f t1) as [f1 l1]. cbn [fst] in Hu.
      specialize (IH f1).
      destruct (runTicks ticks f1 r) as [f2 l2]. cbn [fst] in *.
      rewrite Hi in Hu. cbn [andb] in Hu.
      destruct (m_pause (base f)) eqn:Hp; cbn [negb] in Hu; subst f1.
      * rewrite IH by exact Hi. now rewrite Hp.
      * rewrite IH by exact Hi. cbn [set_time base m_pause]. rewrite Hp.
        cbn [m_time]. now rewrite last_cons_default.
  - intros Hp. induction times as [| t1 r IH]; [ reflexivity | ].
    cbn [runTicks]. rewrite (update_paused_calls ticks f t1 Hi Hp), IH.
    reflexivity.
Qed.

Lemma time_is_counted_from_the_last_unpaused_tick_witness :
  m_init (base (sampleFluids false true CyclicWall)) = true /\
  rawTimeStep ns_per_ms
    (fst (runTicks ns_per_ms (sampleFluids false true CyclicWall)
            [ 16000000; 48000000 ])) 64000000 = F32.of_Z 1.
Proof.
  split; [ reflexivity | ].
  rewrite (proj1 (time_is_counted_from_the_last_unpaused_tick ns_per_ms
                    (sampleFluids false true CyclicWall)
                    [ 16000000; 48000000 ] 64000000 eq_refl)).
  vm_compute. reflexivity.
Defined.

(** ** X10: how much a tick dispatches *)

(** X10: a paused tick of an initialised object dispatches one kernel and
    one sort.  An unpaused tick dispatches 23 kernel runs and sorts, one
    more in simplified mode and one more when the boundary mode is one of
    the two enumerators; it sorts once by cell and once by camera
    distance. *)
Theorem tick_dispatch_count ticks f now :
  m_init (base f) = true ->
  List.length (dispatches (snd (update ticks f now))) =
    (if m_pause (base f) then 2
     else 23 + (if m_simplifiedMode f then 1 else 0)
          + (if validBoundary (m_boundary (base f)) then 1 else 0))%nat /\
  List.length (filter (isSortBy "p_cellID") (snd (update ticks f now))) =
    (if m_pause (base f) then 0 else 1)%nat /\
  List.length (filter (isSortBy "p_cameraDist") (snd (update ticks f now)))
    = 1%nat.
Proof.
  intros Hi. destruct (m_pause (base f)) eqn:Hp.
  - rewrite (update_paused_calls ticks f now Hi Hp). repeat split.
  - rewrite (update_running_calls ticks f now Hi Hp), physics_calls.
    generalize (timeStepOf ticks f now) as ts. intros ts.
    tick_cases f; (split; [ reflexivity | split; reflexivity ]).
Qed.

Lemma tick_dispatch_count_witness :
  m_init (base (sampleFluids false true CyclicWall)) = true /\
  List.length
    (dispatches
       (snd (update ns_per_ms (sampleFluids false true CyclicWall) 16000000)))
    = 25%nat.
Proof.
  split; [ reflexivity | ].
  apply (tick_dispatch_count ns_per_ms (sampleFluids false true CyclicWall)
           16000000).
  reflexivity.
Defined.

(** ** X11: what the constructor does *)

(** X11: when the constructor completes, its calls are the creation of the
    program, of the nine buffers and of the twenty kernels, in this order
    and with nothing run in between, followed by the calls of [reset]; the
    object comes out initialised, in simplified mode, with a cap of 1000
    particles per cell and its clock at the time of construction, and the
    members of the base object are otherwise kept.  A second [reset] at the
    same time would leave the object as it is. *)
Theorem constructor_creates_then_resets m maxNb box now f l :
  Fluids_new m maxNb box now = Some (f, l) ->
  (exists opts,
      l = CreateProgram PROGRAM_FLUIDS "fluids.cl" opts
          :: (snd (createBuffers f) ++ snd (createKernels f))
          ++ snd (reset f now) /\
      In (DefInt "NUM_MAX_PARTS_IN_CELL" 1000) opts /\
      In (DefInt "GRID_RES" (m_gridRes m)) opts /\
      In (DefInt "GRID_NUM_CELLS" (m_nbCells m)) opts) /\
  forallb isCreate (snd (createBuffers f) ++ snd (createKernels f)) = true /\
  existsb isCreate (snd (reset f now)) = false /\
  fst (reset f now) = f /\
  f = set_time now
        (set_init true
           (mkFluids m (F32.lit 16 10) (F32.lit 145 100) (F32.lit 16 10)
              true true true true 1000 maxNb box)).
Proof.
  unfold Fluids_new.
  destruct (createProgram _) as [cp |] eqn:E; [ | discriminate ].
  unfold createProgram in E.
  destruct (effectRadiusSquared _) as [r2 |]; [ | discriminate E ].
  injection E as <-.
  rewrite reset_calls by reflexivity.
  intros H. injection H as <- <-.
  split; [ eexists; split; [ reflexivity | cbn; tauto ] | ].
  split; [ reflexivity | ].
  rewrite reset_calls by reflexivity.
  split; [ reflexivity | ]. split; reflexivity.
Qed.

Lemma constructor_creates_then_resets_witness :
  exists f l,
    Fluids_new (rawModel CyclicWall) 8 10 7 = Some (f, l) /\
    fst (reset f 7) = f.
Proof.
  destruct (Fluids_new (rawModel CyclicWall) 8 10 7) as [[f l] |] eqn:E;
    [ | discriminate E ].
  exists f, l. split; [ reflexivity | ].
  apply (constructor_creates_then_resets (rawModel CyclicWall) 8 10 7 f l E).
Defined.

(** ** X12: the predicted positions before the first tick *)

(** X12: none of the kernels the constructor runs was created with
    p_predPos among its buffers, so construction leaves that buffer as
    allocated; the first kernel an unpaused tick runs is the cell
    identifier fill, which was created with p_predPos as its first
    buffer. *)
Theorem predicted_positions_untouched_before_first_tick
    m maxNb box now f l ticks t :
  Fluids_new m maxNb box now = Some (f, l) ->
  (forall k n args,
      In (RunKernel k n) l -> argsOfKernel k l = Some args ->
      ~ In "p_predPos" args) /\
  argsOfKernel KERNEL_FILL_CELL_ID l = Some [ "p_predPos"; "p_cellID" ] /\
  (m_pause (base f) = false ->
   exists rest,
     snd (update ticks f t) =
       AcquireGLBuffers [ "p_pos"; "c_partDetector"; "u_cameraPos" ]
       :: RunKernel KERNEL_FILL_CELL_ID (m_currNbParticles (base f))
       :: rest).
Proof.
  intros Hnew.
  pose proof (constructed_is_initialised _ _ _ _ _ _ Hnew) as Hi.
  revert Hnew. unfold Fluids_new.
  destruct (createProgram _) as [cp |] eqn:E; [ | discriminate ].
  unfold createProgram in E.
  destruct (effectRadiusSquared _) as [r2 |]; [ | discriminate E ].
  injection E as <-.
  rewrite reset_calls by reflexivity.
  intros H. injection H as Hf <-. split; [ | split ].
  - intros k n args Hrun. cbn in Hrun. in_cases Hrun;
      injection Hrun as <- _; cbn; intros Hargs; injection Hargs as <-;
      cbn; intros H; in_cases H.
  - reflexivity.
  - intros Hp. rewrite (update_running_calls ticks f t Hi Hp), physics_calls.
    eexists. reflexivity.
Qed.

Lemma predicted_positions_untouched_before_first_tick_witness :
  exists f l,
    Fluids_new (rawModel CyclicWall) 8 10 7 = Some (f, l) /\
    argsOfKernel KERNEL_FILL_CELL_ID l = Some [ "p_predPos"; "p_cellID" ].
Proof.
  destruct (Fluids_new (rawModel CyclicWall) 8 10 7) as [[f l] |] eqn:E;
    [ | discriminate E ].
  exists f, l. split; [ reflexivity | ].
  apply (predicted_positions_untouched_before_first_tick
           (rawModel CyclicWall) 8 10 7 f l ns_per_ms 23 E).
Defined.

(** ** X13: the size of the particle buffers *)

(** X13: the three buffers of four floats per particle (p_predPos,
    p_corrPos, p_vel) are created with one and the same byte count, 16
    times the capacity modulo 2^64: it is 16 bytes per particle as long as
    the capacity is below 2^60, and less than that from 2^60 on. *)
Theorem particle_buffer_bytes f :
  0 <= m_maxNbParticles (base f) < 2 ^ 64 ->
  exists bytes,
    In (CreateBuffer "p_predPos" bytes CL_MEM_READ_WRITE)
       (snd (createBuffers f)) /\
    In (CreateBuffer "p_corrPos" bytes CL_MEM_READ_WRITE)
       (snd (createBuffers f)) /\
    In (CreateBuffer "p_vel" bytes CL_MEM_READ_WRITE)
       (snd (createBuffers f)) /\
    bytes = (16 * m_maxNbParticles (base f)) mod 2 ^ 64 /\
    (m_maxNbParticles (base f) < 2 ^ 60 ->
     bytes = 16 * m_maxNbParticles (base f)) /\
    (2 ^ 60 <= m_maxNbParticles (base f) ->
     bytes < 16 * m_maxNbParticles (base f)).
Proof.
  intros Hmax.
  exists (size_mul (size_mul 4 (m_maxNbParticles (base f))) sizeof_float).
  split; [ find_in | ]. split; [ find_in | ]. split; [ find_in | ].
  assert (E : size_mul (size_mul 4 (m_maxNbParticles (base f))) sizeof_float
              = (16 * m_maxNbParticles (base f)) mod 2 ^ 64).
  { unfold size_mul, wrap_size_t, size_t_mod, sizeof_float.
    rewrite Z.mul_mod_idemp_l by lia. f_equal. lia. }
  rewrite E. split; [ reflexivity | ]. split.
  - intros Hlt. apply Z.mod_small. lia.
  - intros Hge.
    pose proof (Z.mod_pos_bound (16 * m_maxNbParticles (base f)) (2 ^ 64)
                  ltac:(lia)).
    lia.
Qed.

Lemma particle_buffer_bytes_witness :
  0 <= m_maxNbParticles (base (sampleFluids false true CyclicWall)) < 2 ^ 64 /\
  exists bytes,
    In (CreateBuffer "p_vel" bytes CL_MEM_READ_WRITE)
       (snd (createBuffers (sampleFluids false true CyclicWall))) /\
    bytes = 128.
Proof.
  split; [ cbn; lia | ].
  destruct (particle_buffer_bytes (sampleFluids false true CyclicWall))
    as [bytes [_ [_ [Hv [He _]]]]]; [ cbn; lia | ].
  exists bytes. split; [ exact Hv | ]. rewrite He. reflexivity.
Defined.

(** ** The square of the grid resolution *)

Lemma pow2_divides_square n g :
  (2 ^ (2 * Z.of_nat n) | g * g) -> (2 ^ Z.of_nat n | g).
Proof.
  revert g. induction n as [| n IH]; intros g [c Hc].
  - exists g. cbn. lia.
  - rewrite Nat2Z.inj_succ in *.
    replace (2 * Z.succ (Z.of_nat n)) with (2 * Z.of_nat n + 2) in Hc by lia.
    rewrite Z.pow_add_r in Hc by lia. change (2 ^ 2) with 4 in Hc.
    assert (Heven : Z.even g = true).
    { destruct (Z.even g) eqn:E; [ reflexivity | ].
      assert (H : Z.even (g * g) = false) by now rewrite Z.even_mul, E.
      rewrite Hc, !Z.even_mul in H. change (Z.even 4) with true in H.
      rewrite !Bool.orb_true_r in H. discriminate H. }
    apply Z.even_spec in Heven. destruct Heven as [h ->].
    assert (Hh : h * h = c * 2 ^ (2 * Z.of_nat n)) by nia.
    destruct (IH h (ex_intro _ c Hh)) as [d Hd].
    exists d. rewrite Z.pow_succ_r by lia. lia.
Qed.

Lemma square_wraps_to_zero g :
  size_mul g g = 0 <-> g mod 2 ^ 32 = 0.
Proof.
  unfold size_mul, wrap_size_t, size_t_mod.
  rewrite !Z.mod_divide by lia. split.
  - intros H. apply (pow2_divides_square 32 g). exact H.
  - intros [d ->]. exists (d * d). change (2 ^ 64) with (2 ^ 32 * 2 ^ 32). ring.
Qed.

(** The constructor on a grid resolution of 0 and of 2^32. *)
Example constructor_grid_resolution_zero :
  Fluids_new (mkModel false false 0 CyclicWall dim3D (F32.of_Z 1)
                10 0 0 8 4 1 2 3) 8 10 0 = None /\
  Fluids_new (mkModel false false 0 CyclicWall dim3D (F32.of_Z 1)
                10 (2 ^ 32) 0 8 4 1 2 3) 8 10 0 = None.
Proof. split; reflexivity. Qed.

(** ** X15: the gap from which the time step is dropped *)

Lemma digits2_pos_size p : digits2_pos p = Pos.size p.
Proof. induction p; cbn; congruence. Qed.

Lemma digits2_pos_bounds p :
  2 ^ (Zpos (digits2_pos p) - 1) <= Zpos p < 2 ^ Zpos (digits2_pos p).
Proof.
  rewrite digits2_pos_size. split.
  - pose proof (Pos.size_le p) as H.
    assert (H' : 2 ^ Zpos (Pos.size p) <= 2 * Zpos p).
    { change (2 * Zpos p) with (Zpos p~0).
      rewrite <- Pos2Z.inj_pow. apply Pos2Z.pos_le_pos. exact H. }
    replace (Zpos (Pos.size p)) with (Z.succ (Zpos (Pos.size p) - 1)) in H'
      by lia.
    rewrite Z.pow_succ_r in H' by lia. lia.
  - pose proof (Pos.size_gt p) as H.
    rewrite <- Pos2Z.inj_pow. apply Pos2Z.pos_lt_pos. exact H.
Qed.

Lemma digits2_pos_unique p k :
  2 ^ (k - 1) <= Zpos p < 2 ^ k -> Zpos (digits2_pos p) = k.
Proof.
  intros [Hlo Hhi]. pose proof (digits2_pos_bounds p) as [Dlo Dhi].
  set (d := Zpos (digits2_pos p)) in *.
  assert (0 < d) by (subst d; lia).
  destruct (Z.lt_trichotomy d k) as [Hlt | [Heq | Hgt]]; [ | exact Heq | ].
  - assert (2 ^ d <= 2 ^ (k - 1)) by (apply Z.pow_le_mono_r; lia). lia.
  - assert (k <= 0 \/ 0 < k) as [Hk | Hk] by lia.
    + assert (2 ^ k <= 1).
      { destruct (Z.eq_dec k 0) as [-> | Hne]; [ cbn; lia | ].
        rewrite Z.pow_neg_r by lia. lia. }
      lia.
    + assert (2 ^ k <= 2 ^ (d - 1)) by (apply Z.pow_le_mono_r; lia). lia.
Qed.

Lemma shr_1_m r : 0 <= shr_m r -> shr_m (shr_1 r) = shr_m r / 2.
Proof.
  destruct r as [m rb sb]. cbn [shr_m]. intros Hm.
  destruct m as [| p | p]; [ reflexivity | | lia ].
  destruct p as [p | p |]; cbn [shr_1 shr_m].
  - rewrite Pos2Z.inj_xI. apply Z.div_unique with 1; lia.
  - rewrite Pos2Z.inj_xO. apply Z.div_unique with 0; lia.
  - reflexivity.
Qed.

Lemma iter_shr_m n r :
  0 <= shr_m r ->
  shr_m (iter_pos shr_1 n r) = shr_m r / 2 ^ Zpos n.
Proof.
  revert r. induction n as [n IH | n IH |]; intros r Hr; cbn [iter_pos].
  - assert (H1 : 0 <= shr_m (shr_1 r))
      by (rewrite shr_1_m by exact Hr; apply Z.div_pos; lia).
    assert (H2 : 0 <= shr_m (iter_pos shr_1 n (shr_1 r)))
      by (rewrite IH by exact H1; apply Z.div_pos; lia).
    rewrite IH by exact H2. rewrite IH by exact H1. rewrite shr_1_m by exact Hr.
    rewrite !Z.div_div by lia. f_equal.
    rewrite Pos2Z.inj_xI.
    replace (2 * Z.pos n + 1) with (1 + Z.pos n + Z.pos n) by lia.
    rewrite !Z.pow_add_r by lia. change (2 ^ 1) with 2. ring.
  - assert (H2 : 0 <= shr_m (iter_pos shr_1 n r))
      by (rewrite IH by exact Hr; apply Z.div_pos; lia).
    rewrite IH by exact H2. rewrite IH by exact Hr.
    rewrite !Z.div_div by lia. f_equal.
    rewrite <- Z.pow_add_r by lia. f_equal. lia.
  - rewrite shr_1_m by exact Hr. reflexivity.
Qed.

Lemma binary_round_aux_tail sx mx ex lx :
  binary_round_aux 24 128 sx mx ex lx =
    roundTail sx
      (round_nearest_even (shr_m (fst (shr_fexp 24 128 mx ex lx)))
         (loc_of_shr_record (fst (shr_fexp 24 128 mx ex lx))))
      (snd (shr_fexp 24 128 mx ex lx)).
Proof.
  unfold binary_round_aux, roundTail.
  destruct (shr_fexp 24 128 mx ex lx) as [mrs e']. reflexivity.
Qed.

Lemma fexp32 x : -125 <= x -> fexp 24 128 x = x - 24.
Proof. intros H. unfold fexp, emin. lia. Qed.

Lemma roundTail_24 q e1 :
  Zpos (digits2_pos q) = 24 -> -149 <= e1 ->
  normalFrom e1 (roundTail false (Zpos q) e1).
Proof.
  intros Hd He. unfold roundTail, shr_fexp. cbn [Zdigits2].
  rewrite Hd, fexp32 by lia.
  replace (24 + e1 - 24 - e1) with 0 by lia. cbn [shr shr_record_of_loc shr_m].
  destruct (e1 <=? 128 - 24); [ right | left; reflexivity ].
  exists q, e1. repeat split; [ exact Hd | lia ].
Qed.

Lemma roundTail_carry e1 :
  -149 <= e1 -> normalFrom e1 (roundTail false 16777216 e1).
Proof.
  intros He. unfold roundTail, shr_fexp. cbn [Zdigits2 digits2_pos Pos.succ].
  rewrite fexp32 by lia.
  replace (25 + e1 - 24 - e1) with 1 by lia.
  cbn [shr shr_record_of_loc iter_pos shr_1 shr_m orb].
  destruct (e1 + 1 <=? 128 - 24); [ right | left; reflexivity ].
  exists 8388608%positive, (e1 + 1). repeat split. lia.
Qed.

Lemma round_nearest_even_step m l :
  round_nearest_even m l = m \/ round_nearest_even m l = m + 1.
Proof.
  destruct l as [| []]; cbn; auto. destruct (Z.even m); auto.
Qed.

(** Rounding a positive mantissa of at least 24 digits, outside the
    subnormal range, gives a normal float or infinity. *)
Lemma round_big m e l :
  24 <= Zpos (digits2_pos m) ->
  (Zpos (digits2_pos m) = 24 -> l = loc_Exact) ->
  -149 <= e + Zpos (digits2_pos m) - 24 ->
  normalFrom (e + Zpos (digits2_pos m) - 24)
    (binary_round_aux 24 128 false (Zpos m) e l).
Proof.
  intros Hd Hl He. rewrite binary_round_aux_tail. unfold shr_fexp.
  cbn [Zdigits2]. rewrite fexp32 by lia.
  pose proof (digits2_pos_bounds m) as [Blo Bhi].
  remember (Zpos (digits2_pos m)) as D eqn:HD.
  replace (D + e - 24 - e) with (D - 24) by lia.
  destruct (D - 24) as [| k | k] eqn:Hk; [ | | lia ].
  - assert (HD24 : D = 24) by lia. rewrite (Hl HD24).
    cbn [shr shr_record_of_loc fst snd shr_m loc_of_shr_record
         round_nearest_even].
    replace (e + D - 24) with e by lia.
    apply roundTail_24; [ congruence | lia ].
  - cbn [shr fst snd].
    set (r0 := shr_record_of_loc (Zpos m) l).
    assert (Hr0 : shr_m r0 = Zpos m) by (subst r0; destruct l as [| []]; reflexivity).
    pose proof (iter_shr_m k r0 ltac:(rewrite Hr0; lia)) as Hm.
    rewrite Hr0 in Hm.
    set (r1 := iter_pos shr_1 k r0) in *.
    assert (Hbound : 2 ^ 23 <= shr_m r1 < 2 ^ 24).
    { rewrite Hm.
      assert (HD' : D = 24 + Zpos k) by lia.
      rewrite HD' in Blo, Bhi.
      replace (24 + Zpos k - 1) with (Zpos k + 23) in Blo by lia.
      rewrite Z.pow_add_r in Blo, Bhi by lia.
      assert (0 < 2 ^ Zpos k) by (apply Z.pow_pos_nonneg; lia).
      split.
      - apply Z.div_le_lower_bound; lia.
      - apply Z.div_lt_upper_bound; lia. }
    replace (e + D - 24) with (e + Zpos k) by lia.
    destruct (round_nearest_even_step (shr_m r1) (loc_of_shr_record r1))
      as [-> | ->].
    + destruct (shr_m r1) as [| q | q] eqn:Hq; [ lia | | lia ].
      apply roundTail_24; [ | lia ].
      apply digits2_pos_unique. exact Hbound.
    + destruct (Z.eq_dec (shr_m r1 + 1) (2 ^ 24)) as [-> | Hne].
      * apply roundTail_carry. lia.
      * destruct (shr_m r1 + 1) as [| q | q] eqn:Hq; [ lia | | lia ].
        apply roundTail_24; [ | lia ].
        apply digits2_pos_unique. lia.
Qed.

Lemma normalFrom_weaken lo lo' x : lo' <= lo -> normalFrom lo x -> normalFrom lo' x.
Proof.
  intros Hle [-> | [m [e [-> [Hd He]]]]]; [ left; reflexivity | right ].
  exists m, e. repeat split; [ exact Hd | lia ].
Qed.

Lemma digits2_pos_iter_xO p k :
  Zpos (digits2_pos (Pos.iter xO p k)) = Zpos (digits2_pos p) + Zpos k.
Proof.
  induction k as [| k IH] using Pos.peano_ind.
  - cbn. lia.
  - rewrite Pos.iter_succ. cbn [digits2_pos]. rewrite Pos2Z.inj_succ, IH. lia.
Qed.

(** An integer of at least 512 becomes a normal float of exponent -14 or
    more, or infinity. *)
Lemma of_Z_from_512 p :
  512 <= Zpos p -> normalFrom (-14) (F32.of_Z (Zpos p)).
Proof.
  intros Hp. pose proof (digits2_pos_bounds p) as [Blo Bhi].
  assert (HD : 10 <= Zpos (digits2_pos p)).
  { destruct (Z_lt_le_dec (Zpos (digits2_pos p)) 10) as [Hlt | Hge];
      [ | exact Hge ].
    assert (2 ^ Zpos (digits2_pos p) <= 2 ^ 9)
      by (apply Z.pow_le_mono_r; lia).
    change (2 ^ 9) with 512 in *. lia. }
  unfold F32.of_Z, F32.prec, F32.emax, binary_normalize, binary_round, shl_align.
  rewrite fexp32 by lia.
  remember (Zpos (digits2_pos p)) as D eqn:HeqD.
  replace (D + 0 - 24 - 0) with (D - 24) by lia.
  destruct (D - 24) as [| k | k] eqn:Hk.
  - apply (normalFrom_weaken (0 + Zpos (digits2_pos p) - 24)); [ lia | ].
    apply round_big; [ lia | reflexivity | lia ].
  - apply (normalFrom_weaken (0 + Zpos (digits2_pos p) - 24)); [ lia | ].
    apply round_big; [ lia | reflexivity | lia ].
  - assert (Hk' : Zpos (digits2_pos (Pos.iter xO p k)) = 24)
      by (rewrite digits2_pos_iter_xO; lia).
    apply (normalFrom_weaken
             (D + 0 - 24 + Zpos (digits2_pos (Pos.iter xO p k)) - 24));
      [ lia | ].
    apply round_big; [ lia | reflexivity | lia ].
Qed.

Lemma of_Z_16 : F32.of_Z 16 = S754_finite false 8388608 (-19).
Proof. reflexivity. Qed.

Lemma of_Z_30 : F32.of_Z 30 = S754_finite false 15728640 (-19).
Proof. reflexivity. Qed.

Lemma div_core_by_16 m e :
  Zpos (digits2_pos m) = 24 -> -120 <= e ->
  SFdiv_core_binary 24 128 (Zpos m) e 8388608 (-19)
    = (Zpos m~0, e - 5, loc_Exact).
Proof.
  intros Hd He. unfold SFdiv_core_binary. cbn [Zdigits2]. rewrite Hd.
  change (Zpos (digits2_pos 8388608)) with 24.
  rewrite fexp32 by lia.
  replace (Z.min (24 + e - (24 + -19) - 24) (e - -19)) with (e - 5) by lia.
  replace (e - -19 - (e - 5)) with 24 by lia. cbv zeta.
  rewrite Z.shiftl_mul_pow2 by lia.
  pose proof (Z_div_mod (Zpos m * 2 ^ 24) 8388608 ltac:(lia)) as H.
  destruct (Z.div_eucl (Zpos m * 2 ^ 24) 8388608) as [q r].
  change (2 ^ 24) with 16777216 in H.
  assert (Hq : q = Zpos m~0) by lia. assert (Hr : r = 0) by lia.
  subst q r. reflexivity.
Qed.

Lemma div_16_from_512 x :
  normalFrom (-14) x -> normalFrom (-18) (F32.div x (F32.of_Z 16)).
Proof.
  rewrite of_Z_16.
  intros [-> | [m [e [-> [Hd He]]]]]; [ left; reflexivity | ].
  unfold F32.div, F32.prec, F32.emax, SFdiv.
  rewrite (div_core_by_16 m e Hd) by lia. cbn [xorb].
  apply (normalFrom_weaken (e - 5 + Zpos (digits2_pos m~0) - 24)).
  - cbn [digits2_pos]. rewrite Pos2Z.inj_succ. lia.
  - apply round_big; cbn [digits2_pos]; rewrite Pos2Z.inj_succ; lia.
Qed.

Lemma above_30_from_512 y :
  normalFrom (-18) y -> F32.ltb (F32.of_Z 30) y = true.
Proof.
  rewrite of_Z_30.
  intros [-> | [m [e [-> [Hd He]]]]]; [ reflexivity | ].
  unfold F32.ltb, SFltb, SFcompare.
  assert (Hc : (-19 ?= e) = Lt) by (apply Z.compare_lt_iff; lia).
  now rewrite Hc.
Qed.

Lemma binary_round_aux_negative m e l :
  notPositive (binary_round_aux 24 128 true m e l).
Proof.
  rewrite binary_round_aux_tail. unfold roundTail.
  destruct (shr_fexp 24 128 _ _ loc_Exact) as [mrs e2].
  destruct (shr_m mrs); cbn; auto. destruct (e2 <=? 104); exact eq_refl.
Qed.

Lemma of_Z_not_positive ms : ms <= 0 -> notPositive (F32.of_Z ms).
Proof.
  intros Hms. destruct ms as [| p | p]; [ exact I | lia | ].
  unfold F32.of_Z, binary_normalize, binary_round.
  destruct (shl_align _ _ _) as [mz ez]. apply binary_round_aux_negative.
Qed.

Lemma div_16_not_positive x :
  notPositive x -> notPositive (F32.div x (F32.of_Z 16)).
Proof.
  rewrite of_Z_16. destruct x as [s | s | | s m e]; cbn [notPositive];
    intros H; try exact I; try (subst s; exact eq_refl).
  subst s. unfold F32.div, SFdiv.
  destruct (SFdiv_core_binary _ _ _ _ _ _) as [[mz ez] lz].
  apply binary_round_aux_negative.
Qed.

Lemma not_above_30 y : notPositive y -> F32.ltb (F32.of_Z 30) y = false.
Proof.
  rewrite of_Z_30. destruct y as [s | s | | s m e]; cbn; intros H;
    try reflexivity; subst s; reflexivity.
Qed.

Lemma clampTest_below_512 ms :
  0 <= ms < 512 -> clampTest ms = (480 <? ms).
Proof.
  intros Hms.
  assert (H : forallb (fun i => Bool.eqb (clampTest (Z.of_nat i))
                                         (480 <? Z.of_nat i))
                (seq 0 512) = true) by (vm_compute; reflexivity).
  rewrite forallb_forall in H.
  specialize (H (Z.to_nat ms)). rewrite Z2Nat.id in H by lia.
  apply Bool.eqb_prop, H, in_seq. lia.
Qed.

Lemma clampTest_spec ms : clampTest ms = (480 <? ms).
Proof.
  destruct (Z_lt_le_dec ms 0) as [Hneg | Hnn].
  - unfold clampTest. rewrite not_above_30.
    + symmetry. apply Z.ltb_ge. lia.
    + apply div_16_not_positive, of_Z_not_positive. lia.
  - destruct (Z_lt_le_dec ms 512) as [Hlt | Hge].
    + apply clampTest_below_512. lia.
    + unfold clampTest. destruct ms as [| p | p]; [ lia | | lia ].
      rewrite above_30_from_512.
      * symmetry. apply Z.ltb_lt. lia.
      * apply div_16_from_512, of_Z_from_512. exact Hge.
Qed.

Lemma elapsed_above_480 ticks d :
  0 < ticks -> (480 <? Z.quot d ticks) = (481 * ticks <=? d).
Proof.
  intros Ht. destruct (Z_lt_le_dec d 0) as [Hneg | Hnn].
  - assert (Hq : Z.quot d ticks <= 0).
    { replace d with (- - d) by lia. rewrite Z.quot_opp_l by lia.
      pose proof (Z.quot_pos (- d) ticks ltac:(lia) Ht). lia. }
    transitivity false; [ apply Z.ltb_ge; lia | ].
    symmetry. apply Z.leb_gt. lia.
  - rewrite Z.quot_div_nonneg by lia.
    destruct (Z_lt_le_dec d (481 * ticks)) as [Hlt | Hge].
    + pose proof (Z.div_lt_upper_bound d ticks 481 Ht ltac:(lia)).
      transitivity false; [ apply Z.ltb_ge; lia | ].
      symmetry. apply Z.leb_gt. lia.
    + pose proof (Z.div_le_lower_bound d ticks 481 Ht ltac:(lia)).
      transitivity true; [ apply Z.ltb_lt; lia | ].
      symmetry. apply Z.leb_le. lia.
Qed.

Lemma int64_wrap_small d : - 2 ^ 63 <= d < 2 ^ 63 -> int64_wrap d = d.
Proof.
  intros Hd. unfold int64_wrap.
  destruct (Z_lt_le_dec d 0) as [Hneg | Hnn].
  - replace (d mod 2 ^ 64) with (d + 2 ^ 64).
    + destruct (d + 2 ^ 64 <? 2 ^ 63) eqn:E; [ apply Z.ltb_lt in E | ]; lia.
    + apply Z.mod_unique with (q := -1); lia.
  - rewrite Z.mod_small by lia.
    destruct (d <? 2 ^ 63) eqn:E; [ reflexivity | apply Z.ltb_ge in E; lia ].
Qed.

(** X15: the time step of a tick is dropped to zero exactly when the
    elapsed milliseconds, as the 64-bit difference of the two tick counts
    gives them, are more than 480; 480 or less, a negative count included,
    keep the elapsed milliseconds over 16.  With a clock of [ticks] ticks to
    the millisecond and a difference of the tick counts that fits 64 signed
    bits, this is from a gap of 481 milliseconds on, the part of a
    millisecond being cut off. *)
Theorem time_step_dropped_above_480_ms ticks f now :
  F32.ltb (F32.of_Z 30) (rawTimeStep ticks f now)
    = (480 <? elapsed_ms ticks now (m_time (base f))) /\
  timeStepOf ticks f now
    = (if 480 <? elapsed_ms ticks now (m_time (base f))
       then F32.zero else rawTimeStep ticks f now) /\
  (0 < ticks ->
   - 2 ^ 63 <= now - m_time (base f) < 2 ^ 63 ->
   (480 <? elapsed_ms ticks now (m_time (base f)))
     = (481 * ticks <=? now - m_time (base f))).
Proof.
  assert (H : F32.ltb (F32.of_Z 30) (rawTimeStep ticks f now)
              = (480 <? elapsed_ms ticks now (m_time (base f))))
    by apply clampTest_spec.
  split; [ exact H | ]. split.
  - unfold timeStepOf. now rewrite H.
  - intros Ht Hfit. unfold elapsed_ms. rewrite (int64_wrap_small _ Hfit).
    apply elapsed_above_480, Ht.
Qed.

Lemma time_step_dropped_above_480_ms_witness :
  0 < ns_per_ms /\
  - 2 ^ 63
    <= 480999999 - m_time (base (sampleFluids false true CyclicWall))
    < 2 ^ 63 /\
  (480 <? elapsed_ms ns_per_ms 480999999
            (m_time (base (sampleFluids false true CyclicWall))))
    = (481 * ns_per_ms
         <=? 480999999 - m_time (base (sampleFluids false true CyclicWall))).
Proof.
  assert (Hfit : - 2 ^ 63
                 <= 480999999
                    - m_time (base (sampleFluids false true CyclicWall))
                 < 2 ^ 63) by (cbn; lia).
  split; [ reflexivity | ]. split; [ exact Hfit | ].
  apply (time_step_dropped_above_480_ms ns_per_ms
           (sampleFluids false true CyclicWall) 480999999);
    [ reflexivity | exact Hfit ].
Defined.

(** A difference of 2^63 nanoseconds does not fit: the count read is
    negative and the step, far below zero, is kept. *)
Example time_step_at_wrapped_gap :
  elapsed_ms ns_per_ms (2 ^ 63)
    (m_time (base (sampleFluids false true CyclicWall))) = -9223372036854 /\
  F32.ltb (F32.of_Z 30)
    (rawTimeStep ns_per_ms (sampleFluids false true CyclicWall) (2 ^ 63))
    = false /\
  F32.ltb
    (timeStepOf ns_per_ms (sampleFluids false true CyclicWall) (2 ^ 63))
    F32.zero = true.
Proof. repeat split; vm_compute; reflexivity. Qed.

(** ** X16: the read-only buffer *)

(** X16: of the nine buffers [createBuffers] creates, the camera position
    is the only one created read-only, every other one is read-write; and
    the only kernel [createKernels] gives the camera position to is the
    camera distance fill. *)
Theorem camera_position_is_the_read_only_buffer f :
  (forall name vbo flag,
      In (CreateGLBuffer name vbo flag) (snd (createBuffers f)) ->
      (flag = CL_MEM_READ_ONLY <-> name = "u_cameraPos")) /\
  (forall name bytes flag,
      In (CreateBuffer name bytes flag) (snd (createBuffers f)) ->
      flag = CL_MEM_READ_WRITE /\ name <> "u_cameraPos") /\
  (forall prog k args,
      In (CreateKernel prog k args) (snd (createKernels f)) ->
      In "u_cameraPos" args -> k = KERNEL_FILL_CAMERA_DIST) /\
  List.length (buffersCreated (snd (createBuffers f))) = 9%nat.
Proof.
  split; [ | split; [ | split ] ].
  - intros name vbo flag H. cbn in H. in_cases H;
      injection H as <- _ <-; split; intros E; try reflexivity;
      discriminate E.
  - intros name bytes flag H. cbn in H. in_cases H;
      injection H as <- _ <-; (split; [ reflexivity | discriminate ]).
  - intros prog k args H Hin. cbn in H. in_cases H;
      injection H as _ <- <-; cbn in Hin; in_cases Hin; reflexivity.
  - reflexivity.
Qed.

Lemma camera_position_is_the_read_only_buffer_witness :
  In (CreateGLBuffer "u_cameraPos" 2 CL_MEM_READ_ONLY)
     (snd (createBuffers (sampleFluids false true CyclicWall))) /\
  (CL_MEM_READ_ONLY = CL_MEM_READ_ONLY <-> "u_cameraPos" = "u_cameraPos").
Proof.
  assert (H : In (CreateGLBuffer "u_cameraPos" 2 CL_MEM_READ_ONLY)
                 (snd (createBuffers (sampleFluids false true CyclicWall))))
    by (left; reflexivity).
  split; [ exact H | ].
  exact (proj1 (camera_position_is_the_read_only_buffer
                  (sampleFluids false true CyclicWall))
               "u_cameraPos" 2 CL_MEM_READ_ONLY H).
Defined.
